(** * Mat calibration sub-stage of the PSMove configuration tool

    A shallow embedding of [AppSubStage_CalibrateWithMat.cpp]: the session
    state machine ([update], [setState], [onEnterState]), its sample
    accumulation, the composition of the coordinate frames and the per
    tracker pose solve, followed by the properties of the specification
    that were checked against it.

    Conventions of the embedding.
    - A finite C++ [float] is a rational, so the members of the client math
      types are in [Q]. The sums and quotients of the two averaging loops
      are rounded to binary32 as the source rounds them ([float_add],
      [float_div]). The clock, the pixel differences of the re-projection
      error and the algebra of the 4x4 matrices are taken as exact.
    - C++ [int] members are [Z]; the guards of the source keep them inside
      [0, N], so no wrap-around arises.
    - Fixed-size C arrays are lists read with [!!!] and written with
      [<[_:=_]>]; a read outside the array (undefined in the source) yields a
      zeroed element and a write outside is dropped.
    - [std::chrono] time points are rationals counting milliseconds.
    - OpenCV, GLM and the client math helpers are gathered in the record
      [ExternalMath], over which the stage is parameterised;
      [psmove_matrix3x3_to_cv_mat33f] changes the representation of the
      intrinsic matrix only and is left out.
    - [update_tracker_video], [render] and [renderUI] draw and poll video
      frames; of [renderUI] only the restart button acts on the stage. *)

From Stdlib Require Import ZArith QArith Lqa Lia Bool SpecFloat.
From stdpp Require Import base option list.

Local Open Scope Z_scope.

(** ** Single-precision arithmetic

    The sum and the quotient of two [float]s are the binary32 numbers
    nearest to the exact results, ties to even: the operations [SFadd] and
    [SFdiv] of the Standard Library's model of IEEE 754, at precision 24 and
    maximal exponent 128. A rational is read as the [float] nearest to it,
    which is the rational itself when it is the value of a [float]: the
    quotient of numerator and denominator is taken with three bits more
    than the precision, its last bit set when the division leaves a
    remainder, and rounded once. Infinities and NaN, which arise beyond
    2^128 or from a division by zero only, have no rational value and read
    as zero. *)

Definition float_prec : Z := 24.
Definition float_emax : Z := 128.

Definition float_of_Q (q : Q) : spec_float :=
  let n := Z.abs (Qnum q) in
  let d := Zpos (Qden q) in
  let shift := Z.max 0 (Z.log2 d + float_prec + 3 - Z.log2 n) in
  let scaled := n * 2 ^ shift in
  let m := if scaled mod d =? 0 then scaled / d else Z.lor (scaled / d) 1 in
  binary_normalize float_prec float_emax (Z.sgn (Qnum q) * m) (- shift) false.

Definition Q_of_float (f : spec_float) : Q :=
  match f with
  | S754_finite s m e =>
      let n := if s then Zneg m else Zpos m in
      match e with
      | Zneg k => n # (2 ^ k)
      | _ => inject_Z (n * 2 ^ e)
      end
  | _ => 0%Q
  end.

(** [a + b] on [float]s *)
Definition float_add (a b : Q) : Q :=
  Q_of_float (SFadd float_prec float_emax (float_of_Q a) (float_of_Q b)).

(** [a / b] on [float]s *)
Definition float_div (a b : Q) : Q :=
  Q_of_float (SFdiv float_prec float_emax (float_of_Q a) (float_of_Q b)).

(** ** Client math types *)

Record PSMoveScreenLocation := mkScreenLocation { sl_x : Q; sl_y : Q }.
Record PSMoveFloatVector2 := mkFloatVector2 { v2_i : Q; v2_j : Q }.
Record PSMovePosition := mkPosition { pos_x : Q; pos_y : Q; pos_z : Q }.
Record PSMoveFloatVector3 := mkFloatVector3 { v3_i : Q; v3_j : Q; v3_k : Q }.
Record PSMoveQuaternion := mkQuaternion { q_w : Q; q_x : Q; q_y : Q; q_z : Q }.
Record PSMovePose := mkPose { Position : PSMovePosition; Orientation : PSMoveQuaternion }.

(** The operators of the client math types used by the averaging loops:
    component-wise sums and quotients of [float]s. *)
Module PSMoveFloatVector2_ops.
Definition create (i j : Q) : PSMoveFloatVector2 := mkFloatVector2 i j.
Definition add (a b : PSMoveFloatVector2) : PSMoveFloatVector2 :=
  mkFloatVector2 (float_add (v2_i a) (v2_i b)) (float_add (v2_j a) (v2_j b)).
Definition unsafe_divide (a : PSMoveFloatVector2) (s : Q) : PSMoveFloatVector2 :=
  mkFloatVector2 (float_div (v2_i a) s) (float_div (v2_j a) s).
End PSMoveFloatVector2_ops.

Module PSMoveFloatVector3_ops.
Definition add (a b : PSMoveFloatVector3) : PSMoveFloatVector3 :=
  mkFloatVector3 (float_add (v3_i a) (v3_i b)) (float_add (v3_j a) (v3_j b))
                 (float_add (v3_k a) (v3_k b)).
Definition unsafe_divide (a : PSMoveFloatVector3) (s : Q) : PSMoveFloatVector3 :=
  mkFloatVector3 (float_div (v3_i a) s) (float_div (v3_j a) s) (float_div (v3_k a) s).
Definition castToPSMovePosition (a : PSMoveFloatVector3) : PSMovePosition :=
  mkPosition (v3_i a) (v3_j a) (v3_k a).
End PSMoveFloatVector3_ops.

Module PSMoveQuaternion_ops.
Definition add (a b : PSMoveQuaternion) : PSMoveQuaternion :=
  mkQuaternion (float_add (q_w a) (q_w b)) (float_add (q_x a) (q_x b))
               (float_add (q_y a) (q_y b)) (float_add (q_z a) (q_z b)).
Definition unsafe_divide (a : PSMoveQuaternion) (s : Q) : PSMoveQuaternion :=
  mkQuaternion (float_div (q_w a) s) (float_div (q_x a) s)
               (float_div (q_y a) s) (float_div (q_z a) s).
End PSMoveQuaternion_ops.

Definition toPSMoveFloatVector2 (p : PSMoveScreenLocation) : PSMoveFloatVector2 :=
  mkFloatVector2 (sl_x p) (sl_y p).
Definition PSMoveScreenLocation_create (x y : Q) : PSMoveScreenLocation :=
  mkScreenLocation x y.
Definition toPSMoveFloatVector3 (p : PSMovePosition) : PSMoveFloatVector3 :=
  mkFloatVector3 (pos_x p) (pos_y p) (pos_z p).

Definition k_psmove_float_vector3_zero : PSMoveFloatVector3 := mkFloatVector3 0 0 0.
Definition k_psmove_position_origin : PSMovePosition := mkPosition 0 0 0.
Definition k_psmove_quaternion_identity : PSMoveQuaternion := mkQuaternion 1 0 0 0.
Definition k_psmove_pose_identity : PSMovePose :=
  mkPose k_psmove_position_origin k_psmove_quaternion_identity.

(** Equality of rational-valued points up to the value of the fractions. *)
Definition screen_eq (a b : PSMoveScreenLocation) : Prop :=
  (sl_x a == sl_x b)%Q ∧ (sl_y a == sl_y b)%Q.
Definition position_eq (a b : PSMovePosition) : Prop :=
  (pos_x a == pos_x b)%Q ∧ (pos_y a == pos_y b)%Q ∧ (pos_z a == pos_z b)%Q.

(** ** GLM 4x4 matrices, stored by columns as GLM does *)

Record vec4 := mkVec4 { c_x : Q; c_y : Q; c_z : Q; c_w : Q }.
Record mat4 := mkMat4 { col0 : vec4; col1 : vec4; col2 : vec4; col3 : vec4 }.

Definition vec4_scale (s : Q) (v : vec4) : vec4 :=
  mkVec4 (s * c_x v)%Q (s * c_y v)%Q (s * c_z v)%Q (s * c_w v)%Q.
Definition vec4_add (a b : vec4) : vec4 :=
  mkVec4 (c_x a + c_x b)%Q (c_y a + c_y b)%Q (c_z a + c_z b)%Q (c_w a + c_w b)%Q.

(** [m * v]: the linear combination of the columns of [m]. *)
Definition mat4_apply (m : mat4) (v : vec4) : vec4 :=
  vec4_add (vec4_add (vec4_scale (c_x v) (col0 m)) (vec4_scale (c_y v) (col1 m)))
           (vec4_add (vec4_scale (c_z v) (col2 m)) (vec4_scale (c_w v) (col3 m))).

(** [a * b] of GLM: column [k] of the product is [a] applied to column [k] of [b]. *)
Definition mat4_mul (a b : mat4) : mat4 :=
  mkMat4 (mat4_apply a (col0 b)) (mat4_apply a (col1 b))
         (mat4_apply a (col2 b)) (mat4_apply a (col3 b)).

(** [glm::mat4(1.f)] *)
Definition mat4_identity : mat4 :=
  mkMat4 (mkVec4 1 0 0 0) (mkVec4 0 1 0 0) (mkVec4 0 0 1 0) (mkVec4 0 0 0 1).

#[global] Instance Q_inhabited : Inhabited Q := populate 0%Q.

(** [glm::make_mat4]: sixteen floats, column after column. *)
Definition make_mat4 (a : list Q) : mat4 :=
  let g n := a !!! n in
  mkMat4 (mkVec4 (g 0%nat) (g 1%nat) (g 2%nat) (g 3%nat))
         (mkVec4 (g 4%nat) (g 5%nat) (g 6%nat) (g 7%nat))
         (mkVec4 (g 8%nat) (g 9%nat) (g 10%nat) (g 11%nat))
         (mkVec4 (g 12%nat) (g 13%nat) (g 14%nat) (g 15%nat)).

Definition vec4_eq (a b : vec4) : Prop :=
  (c_x a == c_x b)%Q ∧ (c_y a == c_y b)%Q ∧ (c_z a == c_z b)%Q ∧ (c_w a == c_w b)%Q.

(** ** Constants of the stage *)

(** Modelled from the spec: the header constant [k_mat_sample_location_count]
    is not part of the sources at hand; the calibration mat has five sample
    locations, the five initialisers of [k_sample_3d_locations]. *)
Definition k_mat_sample_location_count : Z := 5.

Definition k_stabilize_wait_time_ms : Q := 1000.

Definition k_height_to_psmove_bulb_center : Q := 177 # 10.
Definition k_sample_x_location_offset : Q := 14.
Definition k_sample_z_location_offset : Q := 1075 # 100.

Definition k_sample_3d_locations : list PSMovePosition :=
  [ mkPosition k_sample_x_location_offset k_height_to_psmove_bulb_center k_sample_z_location_offset;
    mkPosition (- k_sample_x_location_offset) k_height_to_psmove_bulb_center k_sample_z_location_offset;
    mkPosition 0 k_height_to_psmove_bulb_center 0;
    mkPosition (- k_sample_x_location_offset) k_height_to_psmove_bulb_center (- k_sample_z_location_offset);
    mkPosition k_sample_x_location_offset k_height_to_psmove_bulb_center (- k_sample_z_location_offset) ].

(** ** Per tracker and head sample sets *)

Record PS3EYETrackerPoseContext := mkTrackerCtx {
  screenSpacePoints : list PSMoveScreenLocation;
  screenSpacePointCount : Z;
  avgScreenSpacePointAtLocation : list PSMoveScreenLocation;
  trackerPose : PSMovePose;
  hmdCameraRelativeTrackerPose : PSMovePose;
  reprojectionError : Q;
  bValidTrackerPose : bool
}.

Record HMDTrackerPoseContext := mkHmdCtx {
  worldSpacePoints : list PSMovePosition;
  worldSpaceOrientations : list PSMoveQuaternion;
  worldSpaceSampleCount : Z;
  avgHMDWorldSpacePoint : PSMovePosition;
  avgHMDWorldSpaceOrientation : PSMoveQuaternion
}.

#[global] Instance PSMoveScreenLocation_inhabited : Inhabited PSMoveScreenLocation :=
  populate (mkScreenLocation 0 0).
#[global] Instance PSMovePosition_inhabited : Inhabited PSMovePosition :=
  populate k_psmove_position_origin.
#[global] Instance PSMoveQuaternion_inhabited : Inhabited PSMoveQuaternion :=
  populate (mkQuaternion 0 0 0 0).
#[global] Instance PS3EYETrackerPoseContext_inhabited : Inhabited PS3EYETrackerPoseContext :=
  populate (mkTrackerCtx [] 0 [] k_psmove_pose_identity k_psmove_pose_identity 0 false).

(** Modelled from the spec: [HMDTrackerPoseContext::clear] lives in the
    header, which is not part of the sources at hand; the reset "clears all
    counts and buffers" of the head set. *)
Definition HMDTrackerPoseContext_clear (h : HMDTrackerPoseContext) : HMDTrackerPoseContext :=
  mkHmdCtx (replicate (length (worldSpacePoints h)) k_psmove_position_origin)
           (replicate (length (worldSpaceOrientations h)) k_psmove_quaternion_identity)
           0
           k_psmove_position_origin
           k_psmove_quaternion_identity.

Definition set_screenSpacePointCount (n : Z) (c : PS3EYETrackerPoseContext) :=
  mkTrackerCtx (screenSpacePoints c) n (avgScreenSpacePointAtLocation c)
               (trackerPose c) (hmdCameraRelativeTrackerPose c)
               (reprojectionError c) (bValidTrackerPose c).
Definition set_screenSpacePoints (l : list PSMoveScreenLocation) (c : PS3EYETrackerPoseContext) :=
  mkTrackerCtx l (screenSpacePointCount c) (avgScreenSpacePointAtLocation c)
               (trackerPose c) (hmdCameraRelativeTrackerPose c)
               (reprojectionError c) (bValidTrackerPose c).
Definition set_avgScreenSpacePointAtLocation (l : list PSMoveScreenLocation)
    (c : PS3EYETrackerPoseContext) :=
  mkTrackerCtx (screenSpacePoints c) (screenSpacePointCount c) l
               (trackerPose c) (hmdCameraRelativeTrackerPose c)
               (reprojectionError c) (bValidTrackerPose c).
Definition set_trackerPose (p : PSMovePose) (c : PS3EYETrackerPoseContext) :=
  mkTrackerCtx (screenSpacePoints c) (screenSpacePointCount c)
               (avgScreenSpacePointAtLocation c)
               p (hmdCameraRelativeTrackerPose c)
               (reprojectionError c) (bValidTrackerPose c).
Definition set_hmdCameraRelativeTrackerPose (p : PSMovePose) (c : PS3EYETrackerPoseContext) :=
  mkTrackerCtx (screenSpacePoints c) (screenSpacePointCount c)
               (avgScreenSpacePointAtLocation c)
               (trackerPose c) p
               (reprojectionError c) (bValidTrackerPose c).
Definition set_reprojectionError (e : Q) (c : PS3EYETrackerPoseContext) :=
  mkTrackerCtx (screenSpacePoints c) (screenSpacePointCount c)
               (avgScreenSpacePointAtLocation c)
               (trackerPose c) (hmdCameraRelativeTrackerPose c)
               e (bValidTrackerPose c).
Definition set_bValidTrackerPose (b : bool) (c : PS3EYETrackerPoseContext) :=
  mkTrackerCtx (screenSpacePoints c) (screenSpacePointCount c)
               (avgScreenSpacePointAtLocation c)
               (trackerPose c) (hmdCameraRelativeTrackerPose c)
               (reprojectionError c) b.

(** ** What the stage reads from its parent and from the devices *)

Record ClientTrackerView := mkTrackerView {
  getTrackerId : Z;
  getTrackerPixelExtents : PSMoveFloatVector2;
  getTrackerIntrinsicMatrix : list Q
}.

(** One entry of the parent stage's [m_trackerViews] map. *)
Record TrackerState := mkTrackerState {
  listIndex : Z;
  trackerView : ClientTrackerView
}.

Record ClientPSMoveView := mkPSMoveView {
  GetIsStableAndAlignedWithGravity : bool;
  GetIsCurrentlyTracking : bool;
  GetPixelLocationOnTrackerId : Z → option PSMoveScreenLocation
}.

Record ClientHMDView := mkHMDView {
  getIsHMDStableAndAlignedWithGravity : bool;
  getIsHMDTracking : bool;
  getHmdPose : PSMovePose;
  getTrackerPose : PSMovePose
}.

(** The readings of one call of [update]: the controller view, the head
    view (a null pointer is [None]) and the clock. *)
Record Tick := mkTick {
  ControllerView : ClientPSMoveView;
  HMDView : option ClientHMDView;
  clock_now : Q
}.

(** A call of [request_set_tracker_pose] on the parent stage. *)
Record SetTrackerPoseRequest := mkRequest {
  req_pose : PSMovePose;
  req_hmdRelativePose : PSMovePose;
  req_trackerView : ClientTrackerView
}.

(** ** The stage *)

Inductive eMenuState :=
| initial
| calibrationStepPlacePSMove
| calibrationStepRecordPSMove
| calibrationStepPlaceHMD
| calibrationStepRecordHMD
| calibrationStepComputeTrackerPoses
| calibrateStepSuccess
| calibrateStepFailed.

#[global] Instance eMenuState_eq_dec : EqDecision eMenuState.
Proof. solve_decision. Defined.

(** The members of the stage, and the requests it has issued to its parent
    so far (oldest first). *)
Record AppSubStage_CalibrateWithMat := mkStage {
  m_menuState : eMenuState;
  m_bIsStable : bool;
  m_stableStartTime : Q;
  m_sampleLocationIndex : Z;
  m_psmoveTrackerPoseContexts : list PS3EYETrackerPoseContext;
  m_hmdTrackerPoseContext : HMDTrackerPoseContext;
  parent_requests : list SetTrackerPoseRequest
}.

Definition set_menuState (v : eMenuState) (s : AppSubStage_CalibrateWithMat) :=
  mkStage v (m_bIsStable s) (m_stableStartTime s) (m_sampleLocationIndex s)
          (m_psmoveTrackerPoseContexts s) (m_hmdTrackerPoseContext s) (parent_requests s).
Definition set_bIsStable (v : bool) (s : AppSubStage_CalibrateWithMat) :=
  mkStage (m_menuState s) v (m_stableStartTime s) (m_sampleLocationIndex s)
          (m_psmoveTrackerPoseContexts s) (m_hmdTrackerPoseContext s) (parent_requests s).
Definition set_stableStartTime (v : Q) (s : AppSubStage_CalibrateWithMat) :=
  mkStage (m_menuState s) (m_bIsStable s) v (m_sampleLocationIndex s)
          (m_psmoveTrackerPoseContexts s) (m_hmdTrackerPoseContext s) (parent_requests s).
Definition set_sampleLocationIndex (v : Z) (s : AppSubStage_CalibrateWithMat) :=
  mkStage (m_menuState s) (m_bIsStable s) (m_stableStartTime s) v
          (m_psmoveTrackerPoseContexts s) (m_hmdTrackerPoseContext s) (parent_requests s).
Definition set_psmoveTrackerPoseContexts (v : list PS3EYETrackerPoseContext)
    (s : AppSubStage_CalibrateWithMat) :=
  mkStage (m_menuState s) (m_bIsStable s) (m_stableStartTime s) (m_sampleLocationIndex s)
          v (m_hmdTrackerPoseContext s) (parent_requests s).
Definition set_hmdTrackerPoseContext (v : HMDTrackerPoseContext)
    (s : AppSubStage_CalibrateWithMat) :=
  mkStage (m_menuState s) (m_bIsStable s) (m_stableStartTime s) (m_sampleLocationIndex s)
          (m_psmoveTrackerPoseContexts s) v (parent_requests s).
Definition add_parent_requests (v : list SetTrackerPoseRequest)
    (s : AppSubStage_CalibrateWithMat) :=
  mkStage (m_menuState s) (m_bIsStable s) (m_stableStartTime s) (m_sampleLocationIndex s)
          (m_psmoveTrackerPoseContexts s) (m_hmdTrackerPoseContext s)
          (parent_requests s ++ v).

(** ** OpenCV, GLM and client-library routines used by the stage

    None of them is part of the sources at hand; the stage is embedded over
    an arbitrary implementation of this interface. *)

Record cvPoint3f := mkPoint3f { p3_x : Q; p3_y : Q; p3_z : Q }.
Record cvPoint2f := mkPoint2f { p2_x : Q; p2_y : Q }.

#[global] Instance cvPoint2f_inhabited : Inhabited cvPoint2f := populate (mkPoint2f 0 0).

Record ExternalMath := mkExternalMath {
  (** [PSMoveQuaternion::normalize_with_default] *)
  normalize_with_default : PSMoveQuaternion → PSMoveQuaternion → PSMoveQuaternion;
  (** [psmove_pose_to_glm_mat4(pose)] *)
  psmove_pose_to_glm_mat4 : PSMovePose → mat4;
  (** [psmove_pose_to_glm_mat4(orientation, position)] *)
  psmove_quat_pos_to_glm_mat4 : PSMoveQuaternion → PSMovePosition → mat4;
  (** [glm::inverse] *)
  glm_inverse : mat4 → mat4;
  glm_mat4_to_psmove_pose : mat4 → PSMovePose;
  (** [cv::solvePnP]: [Some (rvec, tvec)] when it returns true *)
  solvePnP : list cvPoint3f → list cvPoint2f → list Q → list Q → option (list Q * list Q);
  (** [cv::projectPoints] *)
  projectPoints : list cvPoint3f → list Q → list Q → list Q → list Q → list cvPoint2f;
  (** [cv::Rodrigues]: the nine entries of the rotation matrix, row by row *)
  Rodrigues : list Q → list Q
}.

Section Stage.

(** [k_mat_calibration_sample_count] of the header: the number of screen
    samples taken per mat location. *)
Variable k_mat_calibration_sample_count : Z.
(** The parent stage's [m_trackerViews], in iteration order. *)
Variable m_trackerViews : list TrackerState.
Variable ext : ExternalMath.

(** *** State changes *)

Definition onExitState (oldState : eMenuState) (s : AppSubStage_CalibrateWithMat) :
    AppSubStage_CalibrateWithMat := s.

Definition reset_screenSpacePointCounts (ctxs : list PS3EYETrackerPoseContext) :
    list PS3EYETrackerPoseContext :=
  foldl (λ cs ts, alter (set_screenSpacePointCount 0) (Z.to_nat (listIndex ts)) cs)
        ctxs m_trackerViews.

Definition onEnterState (newState : eMenuState) (s : AppSubStage_CalibrateWithMat) :
    AppSubStage_CalibrateWithMat :=
  match newState with
  | calibrationStepPlacePSMove =>
      let s1 := set_psmoveTrackerPoseContexts
                  (reset_screenSpacePointCounts (m_psmoveTrackerPoseContexts s)) s in
      let s2 := set_sampleLocationIndex 0 s1 in
      let s3 := set_bIsStable false s2 in
      set_hmdTrackerPoseContext (HMDTrackerPoseContext_clear (m_hmdTrackerPoseContext s3)) s3
  | calibrationStepPlaceHMD =>
      let s1 := set_bIsStable false s in
      let h := m_hmdTrackerPoseContext s1 in
      set_hmdTrackerPoseContext
        (mkHmdCtx (worldSpacePoints h) (worldSpaceOrientations h) 0
                  (avgHMDWorldSpacePoint h) (avgHMDWorldSpaceOrientation h)) s1
  | _ => s
  end.

Definition setState (newState : eMenuState) (s : AppSubStage_CalibrateWithMat) :
    AppSubStage_CalibrateWithMat :=
  if decide (newState = m_menuState s) then s
  else set_menuState newState (onEnterState newState (onExitState (m_menuState s) s)).

Definition enter (s : AppSubStage_CalibrateWithMat) := setState calibrationStepPlacePSMove s.
Definition exit (s : AppSubStage_CalibrateWithMat) := setState initial s.
(** The "Restart Calibration" button of [renderUI]. *)
Definition restart (s : AppSubStage_CalibrateWithMat) := setState initial s.

(** *** The two placement steps

    [calibrationStepPlacePSMove] and [calibrationStepPlaceHMD] run the same
    statements on the stability reading of their device; [next] is the
    recording step each of them moves to. *)
Definition place_step (isStableNow : bool) (now : Q) (next : eMenuState)
    (s : AppSubStage_CalibrateWithMat) : AppSubStage_CalibrateWithMat :=
  if isStableNow then
    if m_bIsStable s then
      let stableDuration := (now - m_stableStartTime s)%Q in
      if Qle_bool k_stabilize_wait_time_ms stableDuration then setState next s else s
    else set_stableStartTime now (set_bIsStable true s)
  else
    if m_bIsStable s then set_bIsStable false s else s.

(** *** Recording the controller *)

Definition ctx_at (ctxs : list PS3EYETrackerPoseContext) (trackerIndex : Z) :
    PS3EYETrackerPoseContext := ctxs !!! Z.to_nat trackerIndex.

Definition bNeedMoreSamples (ctxs : list PS3EYETrackerPoseContext) : bool :=
  existsb (λ ts, screenSpacePointCount (ctx_at ctxs (listIndex ts))
                 <? k_mat_calibration_sample_count) m_trackerViews.

(** The averaging loop: [sampleIndex] runs over the buffer, the element
    read is [screenSpacePoints[sampleCount]]. *)
Definition average_screen_samples (points : list PSMoveScreenLocation) (sampleCount : Z) :
    PSMoveFloatVector2 :=
  let N := inject_Z k_mat_calibration_sample_count in
  let avg :=
    foldl (λ avg (sampleIndex : nat),
             let sample := points !!! Z.to_nat sampleCount in
             PSMoveFloatVector2_ops.add avg (toPSMoveFloatVector2 sample))
          (PSMoveFloatVector2_ops.create 0 0)
          (seq 0 (Z.to_nat k_mat_calibration_sample_count)) in
  PSMoveFloatVector2_ops.unsafe_divide avg N.

(** Appending [screenSample] to one tracker's buffer (the body of the
    innermost [if] of the recording loop). *)
Definition append_screen_sample (m_sampleLocationIndex : Z) (screenSample : PSMoveScreenLocation)
    (c : PS3EYETrackerPoseContext) : PS3EYETrackerPoseContext :=
  let sampleCount := screenSpacePointCount c in
  let c1 := set_screenSpacePoints
              (<[Z.to_nat sampleCount := screenSample]> (screenSpacePoints c)) c in
  let c2 := set_screenSpacePointCount (screenSpacePointCount c1 + 1) c1 in
  if k_mat_calibration_sample_count <=? screenSpacePointCount c2 then
    let avg := average_screen_samples (screenSpacePoints c2) sampleCount in
    set_avgScreenSpacePointAtLocation
      (<[Z.to_nat m_sampleLocationIndex := PSMoveScreenLocation_create (v2_i avg) (v2_j avg)]>
         (avgScreenSpacePointAtLocation c2)) c2
  else c2.

(** One iteration of the recording loop over the trackers. *)
Definition record_tracker (PSMoveView : ClientPSMoveView) (m_sampleLocationIndex : Z)
    (ctxs : list PS3EYETrackerPoseContext) (ts : TrackerState) :
    list PS3EYETrackerPoseContext :=
  let trackerIndex := listIndex ts in
  if GetIsCurrentlyTracking PSMoveView then
    match GetPixelLocationOnTrackerId PSMoveView (getTrackerId (trackerView ts)) with
    | Some screenSample =>
        if screenSpacePointCount (ctx_at ctxs trackerIndex) <? k_mat_calibration_sample_count
        then <[Z.to_nat trackerIndex :=
                 append_screen_sample m_sampleLocationIndex screenSample
                                      (ctx_at ctxs trackerIndex)]> ctxs
        else ctxs
    | None => ctxs
    end
  else ctxs.

Definition record_psmove_step (PSMoveView : ClientPSMoveView) (hmdPresent : bool)
    (s : AppSubStage_CalibrateWithMat) : AppSubStage_CalibrateWithMat :=
  let bIsStable := GetIsStableAndAlignedWithGravity PSMoveView in
  if bNeedMoreSamples (m_psmoveTrackerPoseContexts s) then
    if bIsStable then
      set_psmoveTrackerPoseContexts
        (foldl (record_tracker PSMoveView (m_sampleLocationIndex s))
               (m_psmoveTrackerPoseContexts s) m_trackerViews) s
    else setState calibrationStepPlacePSMove s
  else
    if negb bIsStable then
      let s1 := set_sampleLocationIndex (m_sampleLocationIndex s + 1) s in
      if m_sampleLocationIndex s1 <? k_mat_sample_location_count then
        setState calibrationStepPlacePSMove s1
      else if hmdPresent then setState calibrationStepPlaceHMD s1
      else setState calibrateStepSuccess s1
    else s.

(** *** Recording the head device *)

(** The averaging loop of the head samples: the running sums start from
    the zero vector and from the identity quaternion, and every round adds
    the elements at [sampleCount]. *)
Definition sum_hmd_samples (h : HMDTrackerPoseContext) (sampleCount : Z) :
    PSMoveFloatVector3 * PSMoveQuaternion :=
  foldl (λ '(avgPosition, avgOrientation) (sampleIndex : nat),
           let posSample := worldSpacePoints h !!! Z.to_nat sampleCount in
           let orientationSample := worldSpaceOrientations h !!! Z.to_nat sampleCount in
           (PSMoveFloatVector3_ops.add avgPosition (toPSMoveFloatVector3 posSample),
            PSMoveQuaternion_ops.add avgOrientation orientationSample))
        (k_psmove_float_vector3_zero, k_psmove_quaternion_identity)
        (seq 0 (Z.to_nat k_mat_sample_location_count)).

Definition record_hmd_step (hmd : ClientHMDView) (s : AppSubStage_CalibrateWithMat) :
    AppSubStage_CalibrateWithMat :=
  let h := m_hmdTrackerPoseContext s in
  if getIsHMDStableAndAlignedWithGravity hmd then
    if getIsHMDTracking hmd && (worldSpaceSampleCount h <? k_mat_sample_location_count) then
      let sampleCount := worldSpaceSampleCount h in
      let pose := getHmdPose hmd in
      let h1 := mkHmdCtx (<[Z.to_nat sampleCount := Position pose]> (worldSpacePoints h))
                         (<[Z.to_nat sampleCount := Orientation pose]> (worldSpaceOrientations h))
                         (sampleCount + 1)
                         (avgHMDWorldSpacePoint h) (avgHMDWorldSpaceOrientation h) in
      if k_mat_sample_location_count <=? worldSpaceSampleCount h1 then
        let N := inject_Z k_mat_sample_location_count in
        let '(avgPosition, avgOrientation) := sum_hmd_samples h1 sampleCount in
        let h2 := mkHmdCtx (worldSpacePoints h1) (worldSpaceOrientations h1)
                           (worldSpaceSampleCount h1)
                           (PSMoveFloatVector3_ops.castToPSMovePosition
                              (PSMoveFloatVector3_ops.unsafe_divide avgPosition N))
                           (normalize_with_default ext
                              (PSMoveQuaternion_ops.unsafe_divide avgOrientation N)
                              k_psmove_quaternion_identity) in
        setState calibrationStepComputeTrackerPoses (set_hmdTrackerPoseContext h2 s)
      else set_hmdTrackerPoseContext h1 s
    else s
  else setState calibrationStepPlaceHMD s.

(** *** Math helpers *)

Definition computePSMoveTrackerToHMDTrackerSpaceTransform (hmdView : ClientHMDView)
    (psmoveCalibrationOffset : PSMovePose) (hmdTrackerPoseContext : HMDTrackerPoseContext) :
    mat4 :=
  let hmdCameraToHmdTrackingSpace := psmove_pose_to_glm_mat4 ext (getTrackerPose hmdView) in
  let hmdTrackingToHmdCameraSpace := glm_inverse ext hmdCameraToHmdTrackingSpace in
  let psmoveCalibrationToHmdTrackingSpace :=
    psmove_quat_pos_to_glm_mat4 ext
      (avgHMDWorldSpaceOrientation hmdTrackerPoseContext)
      (avgHMDWorldSpacePoint hmdTrackerPoseContext) in
  let psmoveCalibrationToPSMoveTrackingSpace :=
    psmove_pose_to_glm_mat4 ext psmoveCalibrationOffset in
  let psmoveTrackingToPSMoveCalibrationSpace :=
    glm_inverse ext psmoveCalibrationToPSMoveTrackingSpace in
  mat4_mul (mat4_mul hmdTrackingToHmdCameraSpace psmoveCalibrationToHmdTrackingSpace)
           psmoveTrackingToPSMoveCalibrationSpace.

(** The object and image points handed to the solver; the loop of the
    source runs up to [k_mat_calibration_sample_count]. *)
Definition cvObjectPoints_of : list cvPoint3f :=
  (λ locationIndex : nat,
     let worldPoint := k_sample_3d_locations !!! locationIndex in
     mkPoint3f (pos_x worldPoint) (pos_y worldPoint) (pos_z worldPoint))
  <$> seq 0 (Z.to_nat k_mat_calibration_sample_count).

Definition cvImagePoints_of (trackerPixelDimensions : PSMoveFloatVector2)
    (trackerCoregData : PS3EYETrackerPoseContext) : list cvPoint2f :=
  (λ locationIndex : nat,
     let screenPoint := avgScreenSpacePointAtLocation trackerCoregData !!! locationIndex in
     mkPoint2f (sl_x screenPoint) (v2_j trackerPixelDimensions - sl_y screenPoint)%Q)
  <$> seq 0 (Z.to_nat k_mat_calibration_sample_count).

Definition cvDistCoeffs : list Q := [0; 0; 0; 0]%Q.

(** The loop over the projected points assigns, it does not add. *)
Definition reprojection_error (cvImagePoints projectedPoints : list cvPoint2f) : Q :=
  foldl (λ (_ : Q) (i : nat),
           let xError := (p2_x (cvImagePoints !!! i) - p2_x (projectedPoints !!! i))%Q in
           let yError := (p2_y (cvImagePoints !!! i) - p2_y (projectedPoints !!! i))%Q in
           let squaredError := (xError * xError + yError * yError)%Q in
           squaredError)
        0%Q (seq 0 (length projectedPoints)).

(** [-R.t() * tvec] for a 3x3 matrix given row by row. *)
Definition inverse_translation (R tvec : list Q) : list Q :=
  (λ r : nat,
     (- (R !!! r * tvec !!! 0%nat
         + R !!! (3 + r)%nat * tvec !!! 1%nat
         + R !!! (6 + r)%nat * tvec !!! 2%nat))%Q)
  <$> seq 0 3.

Definition computeTrackerCameraPose (trackerView : ClientTrackerView)
    (psmoveTrackerToHmdTrackerSpace : mat4) (trackerCoregData : PS3EYETrackerPoseContext) :
    bool * PS3EYETrackerPoseContext :=
  let trackerPixelDimensions := getTrackerPixelExtents trackerView in
  let cvCameraMatrix := getTrackerIntrinsicMatrix trackerView in
  let cvObjectPoints := cvObjectPoints_of in
  let cvImagePoints := cvImagePoints_of trackerPixelDimensions trackerCoregData in
  match solvePnP ext cvObjectPoints cvImagePoints cvCameraMatrix cvDistCoeffs with
  | None => (false, set_bValidTrackerPose false trackerCoregData)
  | Some (rvec, tvec) =>
      let d1 := set_bValidTrackerPose true trackerCoregData in
      let projectedPoints :=
        projectPoints ext cvObjectPoints rvec tvec cvCameraMatrix cvDistCoeffs in
      let d2 := set_reprojectionError (reprojection_error cvImagePoints projectedPoints) d1 in
      let rotMat := Rodrigues ext rvec in
      let tv := inverse_translation rotMat tvec in
      let RTMat :=
        [ rotMat !!! 0%nat; rotMat !!! 1%nat; rotMat !!! 2%nat; 0%Q;
          rotMat !!! 3%nat; rotMat !!! 4%nat; rotMat !!! 5%nat; 0%Q;
          rotMat !!! 6%nat; rotMat !!! 7%nat; rotMat !!! 8%nat; 0%Q;
          tv !!! 0%nat; tv !!! 1%nat; tv !!! 2%nat; 1%Q ] in
      let trackerXform := make_mat4 RTMat in
      let d3 := set_trackerPose (glm_mat4_to_psmove_pose ext trackerXform) d2 in
      let d4 := set_hmdCameraRelativeTrackerPose
                  (glm_mat4_to_psmove_pose ext
                     (mat4_mul psmoveTrackerToHmdTrackerSpace trackerXform)) d3 in
      (true, d4)
  end.

(** *** Computing the tracker poses *)

(** The transform handed to every solve: the identity when there is no
    head view. *)
Definition compute_step_transform (HMDView : option ClientHMDView)
    (s : AppSubStage_CalibrateWithMat) : mat4 :=
  match HMDView with
  | Some hmdView =>
      computePSMoveTrackerToHMDTrackerSpaceTransform
        hmdView k_psmove_pose_identity (m_hmdTrackerPoseContext s)
  | None => mat4_identity
  end.

(** The first loop: it stops as soon as [bSuccess] is false. *)
Definition solve_trackers (psmoveTrackerToHmdTrackerSpace : mat4)
    (ctxs : list PS3EYETrackerPoseContext) : bool * list PS3EYETrackerPoseContext :=
  foldl (λ '(bSuccess, cs) ts,
           if bSuccess : bool then
             let trackerIndex := listIndex ts in
             let '(ok, d) := computeTrackerCameraPose (trackerView ts)
                               psmoveTrackerToHmdTrackerSpace (ctx_at cs trackerIndex) in
             (bSuccess && ok, <[Z.to_nat trackerIndex := d]> cs)
           else (bSuccess, cs))
        (true, ctxs) m_trackerViews.

(** The second loop: one request per tracker view. *)
Definition pose_requests (ctxs : list PS3EYETrackerPoseContext) : list SetTrackerPoseRequest :=
  (λ ts, let trackerSampleData := ctx_at ctxs (listIndex ts) in
         mkRequest (trackerPose trackerSampleData)
                   (hmdCameraRelativeTrackerPose trackerSampleData)
                   (trackerView ts))
  <$> m_trackerViews.

Definition compute_step (HMDView : option ClientHMDView) (s : AppSubStage_CalibrateWithMat) :
    AppSubStage_CalibrateWithMat :=
  let psmoveTrackerToHmdTrackerSpace := compute_step_transform HMDView s in
  let '(bSuccess, ctxs) :=
    solve_trackers psmoveTrackerToHmdTrackerSpace (m_psmoveTrackerPoseContexts s) in
  let s1 := set_psmoveTrackerPoseContexts ctxs s in
  let s2 := if bSuccess then add_parent_requests (pose_requests ctxs) s1 else s1 in
  if bSuccess then setState calibrateStepSuccess s2
  else setState calibrateStepFailed s2.

(** *** [update]

    [None] stands for the dereference of a null head view in the two head
    steps. *)
Definition update (t : Tick) (s : AppSubStage_CalibrateWithMat) :
    option AppSubStage_CalibrateWithMat :=
  match m_menuState s with
  | initial => Some (setState calibrationStepPlacePSMove s)
  | calibrationStepPlacePSMove =>
      Some (place_step (GetIsStableAndAlignedWithGravity (ControllerView t))
                       (clock_now t) calibrationStepRecordPSMove s)
  | calibrationStepRecordPSMove =>
      Some (record_psmove_step (ControllerView t) (bool_decide (is_Some (HMDView t))) s)
  | calibrationStepPlaceHMD =>
      hmd ← HMDView t;
      Some (place_step (getIsHMDStableAndAlignedWithGravity hmd)
                       (clock_now t) calibrationStepRecordHMD s)
  | calibrationStepRecordHMD =>
      hmd ← HMDView t;
      Some (record_hmd_step hmd s)
  | calibrationStepComputeTrackerPoses => Some (compute_step (HMDView t) s)
  | calibrateStepSuccess => Some s
  | calibrateStepFailed => Some s
  end.

(** A session: [update] called once per tick, oldest tick first. *)
Definition run (ticks : list Tick) (s : AppSubStage_CalibrateWithMat) :
    option AppSubStage_CalibrateWithMat :=
  foldl (λ os t, os ≫= update t) (Some s) ticks.

(** *** [renderUI]

    Of [renderUI] the stage keeps what acts on it or is computed from it:
    the "Restart Calibration" button, drawn in the two steps of the
    controller and in the two steps of the head device, and the flag
    [bAnyTrackersSampling] of the recording step, which decides whether the
    prompt to pick up the controller is shown. [get_tracker_count] is the
    parent stage's; the tracker buttons act on the parent stage only. *)
Definition bAnyTrackersSampling (get_tracker_count : Z)
    (ctxs : list PS3EYETrackerPoseContext) : bool :=
  existsb (λ tracker_index : Z,
             screenSpacePointCount (ctx_at ctxs tracker_index)
             <? k_mat_calibration_sample_count)
          (Z.of_nat <$> seq 0 (Z.to_nat get_tracker_count)).

Definition renderUI (restartClicked : bool) (s : AppSubStage_CalibrateWithMat) :
    AppSubStage_CalibrateWithMat :=
  match m_menuState s with
  | calibrationStepPlacePSMove
  | calibrationStepRecordPSMove
  | calibrationStepPlaceHMD
  | calibrationStepRecordHMD => if restartClicked then setState initial s else s
  | _ => s
  end.

End Stage.


(** ** Notions used to state the properties *)

(** The component-wise arithmetic mean of a list of screen points. *)
Definition screen_mean (l : list PSMoveScreenLocation) : PSMoveScreenLocation :=
  let n := inject_Z (Z.of_nat (length l)) in
  mkScreenLocation (foldr Qplus 0%Q (sl_x <$> l) / n)%Q (foldr Qplus 0%Q (sl_y <$> l) / n)%Q.

(** The component-wise arithmetic mean of a list of positions. *)
Definition position_mean (l : list PSMovePosition) : PSMovePosition :=
  let n := inject_Z (Z.of_nat (length l)) in
  mkPosition (foldr Qplus 0%Q (pos_x <$> l) / n)%Q
             (foldr Qplus 0%Q (pos_y <$> l) / n)%Q
             (foldr Qplus 0%Q (pos_z <$> l) / n)%Q.

(** What a placement step observes on one tick: the stability reading of
    its device and the clock. *)
Definition Observation : Type := bool * Q.

Definition psmove_observation (t : Tick) : Observation :=
  (GetIsStableAndAlignedWithGravity (ControllerView t), clock_now t).

(** The clock reading of the first tick of the run of stable readings that
    ends the history, if the history ends with a stable reading. *)
Definition streak_step (acc : option Q) (o : Observation) : option Q :=
  if o.1 then match acc with Some t0 => Some t0 | None => Some o.2 end else None.

Definition streak_start (history : list Observation) : option Q :=
  foldl streak_step None history.

(** The reading [o] comes after [history] and the device has by then been
    stable, without interruption, for the dwell duration. *)
Definition dwell_reached (history : list Observation) (o : Observation) : bool :=
  o.1 && match streak_start history with
         | Some t0 => Qle_bool k_stabilize_wait_time_ms (o.2 - t0)%Q
         | None => false
         end.

(** No tick of the history reached the dwell duration. *)
Definition no_dwell_within (history : list Observation) : Prop :=
  ∀ h1 o h2, history = h1 ++ o :: h2 → dwell_reached h1 o = false.

(** How the members [m_bIsStable] and [m_stableStartTime] follow the
    readings while a placement step waits. *)
Definition timer_tracks (history : list Observation) (s : AppSubStage_CalibrateWithMat) :
    Prop :=
  match streak_start history with
  | Some t0 => m_bIsStable s = true ∧ m_stableStartTime s = t0
  | None => m_bIsStable s = false
  end.

(** Every tracker of the table holds between zero and [N] samples. *)
Definition counts_within (N : Z) (views : list TrackerState)
    (ctxs : list PS3EYETrackerPoseContext) : Prop :=
  ∀ ts, ts ∈ views → 0 ≤ screenSpacePointCount (ctx_at ctxs (listIndex ts)) ≤ N.

(** What holds of every state of a session: the counts are within bounds,
    the location index is zero, and the stage is in one of its first three
    steps. *)
Definition session_invariant (N : Z) (views : list TrackerState)
    (s : AppSubStage_CalibrateWithMat) : Prop :=
  counts_within N views (m_psmoveTrackerPoseContexts s) ∧
  m_sampleLocationIndex s = 0 ∧
  (m_menuState s = initial ∨ m_menuState s = calibrationStepPlacePSMove
   ∨ m_menuState s = calibrationStepRecordPSMove).

(** The states a session goes through: the stage is constructed in
    [initial] and entered; from then on it is updated once per frame, and
    may be restarted, left and entered again at any time. *)
Inductive reachable (N : Z) (views : list TrackerState) (ext : ExternalMath) :
    AppSubStage_CalibrateWithMat → Prop :=
| reachable_enter s :
    m_menuState s = initial → reachable N views ext (enter views s)
| reachable_update s t s' :
    reachable N views ext s → update N views ext t s = Some s' → reachable N views ext s'
| reachable_restart s :
    reachable N views ext s → reachable N views ext (restart views s)
| reachable_exit s :
    reachable N views ext s → reachable N views ext (exit views s)
| reachable_reenter s :
    reachable N views ext s → reachable N views ext (enter views s).

(** The tracker table of the parent stage is well formed: every list index
    lies inside the array of contexts and no two trackers share one. *)
Definition views_well_formed (views : list TrackerState)
    (ctxs : list PS3EYETrackerPoseContext) : Prop :=
  NoDup (listIndex <$> views) ∧
  ∀ ts, ts ∈ views → 0 ≤ listIndex ts < Z.of_nat (length ctxs).

(** The solve of tracker [ts] has been run on its context [c], leaving [c']. *)
Definition solved_from (N : Z) (ext : ExternalMath) (xf : mat4) (ts : TrackerState)
    (c c' : PS3EYETrackerPoseContext) : Prop :=
  c' = (computeTrackerCameraPose N ext (trackerView ts) xf c).2.

(** The solve of tracker [ts] on context [c] succeeds. *)
Definition solve_succeeds (N : Z) (ext : ExternalMath) (xf : mat4) (ts : TrackerState)
    (c : PS3EYETrackerPoseContext) : bool :=
  (computeTrackerCameraPose N ext (trackerView ts) xf c).1.

(** The pose solver has been run for every tracker of the table between
    the contexts [ctxs] and [ctxs']. *)
Definition solver_run_for_every_tracker (N : Z) (views : list TrackerState)
    (ext : ExternalMath) (xf : mat4) (ctxs ctxs' : list PS3EYETrackerPoseContext) : Prop :=
  ∀ ts, ts ∈ views →
    solved_from N ext xf ts (ctx_at ctxs (listIndex ts)) (ctx_at ctxs' (listIndex ts)).

(** What the placement step of the head device observes on one tick; a
    tick without head view has no reading. *)
Definition hmd_observation (t : Tick) : Observation :=
  (match HMDView t with
   | Some hmd => getIsHMDStableAndAlignedWithGravity hmd
   | None => false
   end, clock_now t).

(** What one round of the recording loop does to the context of its own
    tracker. *)
Definition tracker_sample_effect (N : Z) (PSMoveView : ClientPSMoveView) (loc : Z)
    (ts : TrackerState) (c : PS3EYETrackerPoseContext) : PS3EYETrackerPoseContext :=
  if GetIsCurrentlyTracking PSMoveView then
    match GetPixelLocationOnTrackerId PSMoveView (getTrackerId (trackerView ts)) with
    | Some screenSample =>
        if screenSpacePointCount c <? N then append_screen_sample N loc screenSample c else c
    | None => c
    end
  else c.

(** The controller is stable, tracked and seen by every tracker of the
    table. *)
Definition seen_by_all (views : list TrackerState) (t : Tick) : Prop :=
  GetIsStableAndAlignedWithGravity (ControllerView t) = true ∧
  GetIsCurrentlyTracking (ControllerView t) = true ∧
  ∀ ts, ts ∈ views →
    is_Some (GetPixelLocationOnTrackerId (ControllerView t) (getTrackerId (trackerView ts))).

(** The head device is present, stable and tracking. *)
Definition head_steady (t : Tick) : Prop :=
  ∃ hmd, HMDView t = Some hmd ∧
         getIsHMDStableAndAlignedWithGravity hmd = true ∧
         getIsHMDTracking hmd = true.

(** In the recording step of the head device, the head set of [s] is one
    sample short of full. *)
Definition one_head_sample_short (s : AppSubStage_CalibrateWithMat) : Prop :=
  let h := m_hmdTrackerPoseContext s in
  m_menuState s = calibrationStepRecordHMD ∧
  worldSpaceSampleCount h = k_mat_sample_location_count - 1 ∧
  length (worldSpacePoints h) = Z.to_nat k_mat_sample_location_count ∧
  length (worldSpaceOrientations h) = Z.to_nat k_mat_sample_location_count.

(** Equality of matrices up to the value of the fractions. *)
Definition mat4_eq (a b : mat4) : Prop :=
  vec4_eq (col0 a) (col0 b) ∧ vec4_eq (col1 a) (col1 b) ∧
  vec4_eq (col2 a) (col2 b) ∧ vec4_eq (col3 a) (col3 b).

(** Modelled from the spec: [psmove_pose_to_glm_mat4] is defined in
    MathGLM.cpp, which is not part of the sources at hand; the specification
    has it build the rigid transform of an orientation and a position. The
    rotation block is the matrix of the quaternion, as [glm::mat4_cast]
    writes it, and the last column is the position. *)
Definition rigid_transform (q : PSMoveQuaternion) (p : PSMovePosition) : mat4 :=
  let w := q_w q in
  let x := q_x q in
  let y := q_y q in
  let z := q_z q in
  mkMat4
    (mkVec4 (1 - 2 * (y * y + z * z)) (2 * (x * y + w * z)) (2 * (x * z - w * y)) 0)%Q
    (mkVec4 (2 * (x * y - w * z)) (1 - 2 * (x * x + z * z)) (2 * (y * z + w * x)) 0)%Q
    (mkVec4 (2 * (x * z + w * y)) (2 * (y * z - w * x)) (1 - 2 * (x * x + y * y)) 0)%Q
    (mkVec4 (pos_x p) (pos_y p) (pos_z p) 1).

(** The two overloads of [psmove_pose_to_glm_mat4] build rigid transforms. *)
Definition builds_rigid_transforms (ext : ExternalMath) : Prop :=
  (∀ pose, psmove_pose_to_glm_mat4 ext pose
           = rigid_transform (Orientation pose) (Position pose)) ∧
  (∀ q p, psmove_quat_pos_to_glm_mat4 ext q p = rigid_transform q p).

(** What [glm::inverse] promises at an invertible matrix [m]. *)
Definition inverts (ext : ExternalMath) (m : mat4) : Prop :=
  mat4_eq (mat4_mul (glm_inverse ext m) m) mat4_identity ∧
  mat4_eq (mat4_mul m (glm_inverse ext m)) mat4_identity.

(** ** Concrete sessions

    A stand-in for the external routines, a tracker table and ticks on which
    the stage is evaluated below. *)
Module Example.

(** The stand-in solver fails on an intrinsic matrix without focal length
    and otherwise returns the zero rotation and translation; the other
    routines are the simplest functions of their type. *)
Definition math : ExternalMath :=
  mkExternalMath
    (λ q _, q)
    (λ _, mat4_identity)
    (λ _ _, mat4_identity)
    (λ m, m)
    (λ _, k_psmove_pose_identity)
    (λ _ _ cam _, match cam with
                  | f :: _ => if Qeq_bool f 0 then None else Some ([0; 0; 0]%Q, [0; 0; 0]%Q)
                  | [] => None
                  end)
    (λ obj _ _ _ _, (λ _, mkPoint2f 0 0) <$> obj)
    (λ _, [1; 0; 0; 0; 1; 0; 0; 0; 1]%Q).

(** Ten samples per location, as in the end-to-end scenario of the
    specification. *)
Definition N : Z := 10.

Definition good_intrinsics : list Q := [554; 0; 320; 0; 554; 240; 0; 0; 1]%Q.
Definition bad_intrinsics : list Q := [0; 0; 0; 0; 0; 0; 0; 0; 0]%Q.

Definition tracker_a : TrackerState :=
  mkTrackerState 0 (mkTrackerView 7 (mkFloatVector2 640 480) good_intrinsics).
Definition tracker_b : TrackerState :=
  mkTrackerState 1 (mkTrackerView 8 (mkFloatVector2 640 480) good_intrinsics).
Definition tracker_bad : TrackerState :=
  mkTrackerState 0 (mkTrackerView 7 (mkFloatVector2 640 480) bad_intrinsics).

Definition one_tracker : list TrackerState := [tracker_a].
Definition bad_then_good : list TrackerState := [tracker_bad; tracker_b].

Definition blank_ctx : PS3EYETrackerPoseContext :=
  mkTrackerCtx (replicate (Z.to_nat N) (mkScreenLocation 0 0)) 0
               (replicate 5 (mkScreenLocation 0 0))
               k_psmove_pose_identity k_psmove_pose_identity 0 false.

Definition blank_hmd : HMDTrackerPoseContext :=
  mkHmdCtx (replicate 5 k_psmove_position_origin)
           (replicate 5 k_psmove_quaternion_identity)
           0 k_psmove_position_origin k_psmove_quaternion_identity.

(** The stage as constructed, with two tracker contexts. *)
Definition constructed : AppSubStage_CalibrateWithMat :=
  mkStage initial false 0 0 [blank_ctx; blank_ctx] blank_hmd [].

(** A tick without head device: the controller reads [stable], is tracked
    and is seen at pixel [(x, y)] by every tracker. *)
Definition tick (stable : bool) (x y : Q) (now : Q) : Tick :=
  mkTick (mkPSMoveView stable true (λ _, Some (mkScreenLocation x y))) None now.

(** Sampling one mat location from [t0] on: the controller is set down,
    rests for the dwell duration, is sampled [N] times at the pixels
    [(k, 2k)], [k = 0 .. 9], and is picked up. *)
Definition sampling_ticks (t0 : Q) : list Tick :=
  [tick true 0 0 t0; tick true 0 0 (t0 + 1000)%Q]
  ++ ((λ k : nat, tick true (inject_Z (Z.of_nat k)) (inject_Z (2 * Z.of_nat k))
                       (t0 + 1001 + inject_Z (Z.of_nat k))%Q) <$> seq 0 (Z.to_nat N)).

Definition pick_up (now : Q) : Tick := tick false 0 0 now.

Definition one_location (t0 : Q) : list Tick :=
  sampling_ticks t0 ++ [pick_up (t0 + 1100)%Q].

(** The end-to-end scenario: the first call of [update] leaves [initial],
    then the five locations are sampled one after the other. *)
Definition five_locations : list Tick :=
  tick false 0 0 0 :: one_location 0 ++ one_location 2000 ++ one_location 4000
    ++ one_location 6000 ++ one_location 8000.

(** A session in the middle of the third location: tracker [a] holds three
    of its ten samples, the first two locations are averaged. *)
Definition mid_third_location : AppSubStage_CalibrateWithMat :=
  mkStage calibrationStepRecordPSMove true 4000 2
          [mkTrackerCtx (replicate (Z.to_nat N) (mkScreenLocation 5 5)) 3
                        [mkScreenLocation 100 50; mkScreenLocation 200 50;
                         mkScreenLocation 0 0; mkScreenLocation 0 0; mkScreenLocation 0 0]
                        k_psmove_pose_identity k_psmove_pose_identity 0 false;
           blank_ctx]
          blank_hmd [].

(** A session whose fifth location is complete for its one tracker. *)
Definition fifth_location_full : AppSubStage_CalibrateWithMat :=
  mkStage calibrationStepRecordPSMove true 8000 4
          [mkTrackerCtx (replicate (Z.to_nat N) (mkScreenLocation 5 5)) N
                        (replicate 5 (mkScreenLocation 5 5))
                        k_psmove_pose_identity k_psmove_pose_identity 0 false;
           blank_ctx]
          blank_hmd [].

(** A head set holding four of its five samples. *)
Definition head_positions : list PSMovePosition :=
  [mkPosition 0 0 0; mkPosition 10 0 0; mkPosition 20 0 0; mkPosition 30 0 0;
   mkPosition 0 0 0].

Definition recording_head : AppSubStage_CalibrateWithMat :=
  mkStage calibrationStepRecordHMD true 9000 5
          [blank_ctx; blank_ctx]
          (mkHmdCtx head_positions (replicate 5 k_psmove_quaternion_identity) 4
                    k_psmove_position_origin k_psmove_quaternion_identity)
          [].

Definition head_view (stable tracking : bool) (p : PSMovePosition) (q : PSMoveQuaternion) :
    ClientHMDView :=
  mkHMDView stable tracking (mkPose p q) k_psmove_pose_identity.

Definition head_tick (stable tracking : bool) (p : PSMovePosition) (q : PSMoveQuaternion)
    (now : Q) : Tick :=
  mkTick (mkPSMoveView false false (λ _, None)) (Some (head_view stable tracking p q)) now.

(** A session whose head set is full. *)
Definition head_full : AppSubStage_CalibrateWithMat :=
  mkStage calibrationStepRecordHMD true 9000 5
          [blank_ctx; blank_ctx]
          (mkHmdCtx head_positions (replicate 5 k_psmove_quaternion_identity) 5
                    k_psmove_position_origin k_psmove_quaternion_identity)
          [].

(** A session recording the controller whose one tracker is full. *)
Definition first_location_full : AppSubStage_CalibrateWithMat :=
  mkStage calibrationStepRecordPSMove true 0 0
          [mkTrackerCtx (replicate (Z.to_nat N) (mkScreenLocation 5 5)) N
                        (replicate 5 (mkScreenLocation 5 5))
                        k_psmove_pose_identity k_psmove_pose_identity 0 false;
           blank_ctx]
          blank_hmd [].

(** A session about to compute the poses. *)
Definition computing (ctxs : list PS3EYETrackerPoseContext) : AppSubStage_CalibrateWithMat :=
  mkStage calibrationStepComputeTrackerPoses true 9500 5 ctxs blank_hmd [].

(** A session that has just entered the recording step of the head device
    with an empty head set. *)
Definition head_empty : AppSubStage_CalibrateWithMat :=
  mkStage calibrationStepRecordHMD true 9000 5 [blank_ctx; blank_ctx] blank_hmd [].

(** A session waiting in the placement step of the head device. *)
Definition placing_head : AppSubStage_CalibrateWithMat :=
  mkStage calibrationStepPlaceHMD false 0 5 [blank_ctx; blank_ctx] blank_hmd [].

(** A session that has just entered the recording step of the controller
    with two trackers. *)
Definition two_trackers : list TrackerState := [tracker_a; tracker_b].

Definition recording_two : AppSubStage_CalibrateWithMat :=
  mkStage calibrationStepRecordPSMove true 0 0 [blank_ctx; blank_ctx] blank_hmd [].

(** A tick on which only tracker [a] (tracker id 7) sees the controller. *)
Definition tick_seen_by_a (x y : Q) (now : Q) : Tick :=
  mkTick (mkPSMoveView true true
            (λ id, if id =? 7 then Some (mkScreenLocation x y) else None))
         None now.



(** The inverse of a rigid transform: the transposed rotation, and the
    translation taken back through it. *)
Definition rigid_inverse (m : mat4) : mat4 :=
  let a := col0 m in
  let b := col1 m in
  let c := col2 m in
  let t := col3 m in
  let dot u v := (c_x u * c_x v + c_y u * c_y v + c_z u * c_z v)%Q in
  mkMat4 (mkVec4 (c_x a) (c_x b) (c_x c) 0)
         (mkVec4 (c_y a) (c_y b) (c_y c) 0)
         (mkVec4 (c_z a) (c_z b) (c_z c) 0)
         (mkVec4 (- dot a t) (- dot b t) (- dot c t) 1)%Q.

(** The routines of [math], with the pose helpers building rigid transforms
    and the inverse of a rigid transform computed. *)
Definition rigid_math : ExternalMath :=
  mkExternalMath
    (normalize_with_default math)
    (λ pose, rigid_transform (Orientation pose) (Position pose))
    rigid_transform
    rigid_inverse
    (glm_mat4_to_psmove_pose math)
    (solvePnP math)
    (projectPoints math)
    (Rodrigues math).

(** A head device whose camera sits at [(1, 2, 3)], turned about the x
    axis; the unit quaternion has rational components. *)
Definition head_camera_view : ClientHMDView :=
  mkHMDView true true k_psmove_pose_identity
            (mkPose (mkPosition 1 2 3) (mkQuaternion (3 # 5) (4 # 5) 0 0)).

(** The calibration mat offset by [(5, 0, 0)] and turned by half a turn
    about the z axis. *)
Definition mat_offset : PSMovePose :=
  mkPose (mkPosition 5 0 0) (mkQuaternion 0 0 0 1).

(** The stage with an averaged head pose. *)
Definition head_averaged : AppSubStage_CalibrateWithMat :=
  mkStage calibrationStepComputeTrackerPoses true 9000 5
          [blank_ctx; blank_ctx]
          (mkHmdCtx head_positions (replicate 5 k_psmove_quaternion_identity) 5
                    (mkPosition 10 20 30) (mkQuaternion (3 # 5) 0 (4 # 5) 0))
          [].

(** As [recording_head], with the head seen elsewhere on the four earlier
    ticks. *)
Definition recording_head_elsewhere : AppSubStage_CalibrateWithMat :=
  mkStage calibrationStepRecordHMD true 9000 5
          [blank_ctx; blank_ctx]
          (mkHmdCtx (replicate 5 (mkPosition 1 2 3))
                    (replicate 5 (mkQuaternion 0 0 1 0)) 4
                    k_psmove_position_origin k_psmove_quaternion_identity)
          [].

End Example.

(** * Properties *)

Lemma lookup_total_outside {A : Type} `{Inhabited A} (l : list A) (i : nat) :
  (length l ≤ i)%nat → l !!! i = inhabitant.
Proof.
  intros Hi. rewrite list_lookup_total_alt, lookup_ge_None_2 by exact Hi. reflexivity.
Qed.

Section Properties.

Variable N : Z.
Variable ext : ExternalMath.

Lemma append_screen_sample_count (loc : Z) (p : PSMoveScreenLocation)
    (c : PS3EYETrackerPoseContext) :
  screenSpacePointCount (append_screen_sample N loc p c) = screenSpacePointCount c + 1.
Proof.
  unfold append_screen_sample. cbv zeta. case_match; reflexivity.
Qed.

Lemma append_screen_sample_points (loc : Z) (p : PSMoveScreenLocation)
    (c : PS3EYETrackerPoseContext) :
  screenSpacePoints (append_screen_sample N loc p c)
  = <[Z.to_nat (screenSpacePointCount c) := p]> (screenSpacePoints c).
Proof.
  unfold append_screen_sample. cbv zeta. case_match; reflexivity.
Qed.

(** Before the buffer is full the averaged points are left alone. *)
Lemma append_screen_sample_not_last (loc : Z) (p : PSMoveScreenLocation)
    (c : PS3EYETrackerPoseContext) :
  screenSpacePointCount c + 1 < N →
  avgScreenSpacePointAtLocation (append_screen_sample N loc p c)
  = avgScreenSpacePointAtLocation c.
Proof.
  intros Hc. unfold append_screen_sample. cbv zeta. simpl.
  destruct (Z.leb_spec N (screenSpacePointCount c + 1)); [lia | reflexivity].
Qed.

(** *** [setState] and the entry hooks *)

Lemma setState_menuState (views : list TrackerState) (st : eMenuState)
    (s : AppSubStage_CalibrateWithMat) :
  m_menuState (setState views st s) = st.
Proof.
  unfold setState. case_decide; [congruence | reflexivity].
Qed.

Lemma setState_parent_requests (views : list TrackerState) (st : eMenuState)
    (s : AppSubStage_CalibrateWithMat) :
  parent_requests (setState views st s) = parent_requests s.
Proof.
  unfold setState. case_decide; [reflexivity|]. destruct st; reflexivity.
Qed.

Lemma setState_place_from_other (views : list TrackerState)
    (s : AppSubStage_CalibrateWithMat) :
  m_menuState s ≠ calibrationStepPlacePSMove →
  setState views calibrationStepPlacePSMove s
  = set_menuState calibrationStepPlacePSMove (onEnterState views calibrationStepPlacePSMove s).
Proof.
  intros Hne. unfold setState, onExitState. case_decide; [congruence | reflexivity].
Qed.

(** Entering the placement step of the controller puts the location index
    back to zero. *)
Lemma enter_place_sampleLocationIndex (views : list TrackerState)
    (s : AppSubStage_CalibrateWithMat) :
  m_menuState s ≠ calibrationStepPlacePSMove →
  m_sampleLocationIndex (setState views calibrationStepPlacePSMove s) = 0.
Proof.
  intros Hne. rewrite setState_place_from_other by exact Hne. reflexivity.
Qed.

Lemma enter_place_bIsStable (views : list TrackerState) (s : AppSubStage_CalibrateWithMat) :
  m_menuState s ≠ calibrationStepPlacePSMove →
  m_bIsStable (setState views calibrationStepPlacePSMove s) = false.
Proof.
  intros Hne. rewrite setState_place_from_other by exact Hne. reflexivity.
Qed.

Lemma enter_place_contexts (views : list TrackerState) (s : AppSubStage_CalibrateWithMat) :
  m_menuState s ≠ calibrationStepPlacePSMove →
  m_psmoveTrackerPoseContexts (setState views calibrationStepPlacePSMove s)
  = reset_screenSpacePointCounts views (m_psmoveTrackerPoseContexts s).
Proof.
  intros Hne. rewrite setState_place_from_other by exact Hne. reflexivity.
Qed.

(** The reset of the counts touches nothing but the counts. *)
Lemma reset_screenSpacePointCounts_lookup (views : list TrackerState)
    (ctxs : list PS3EYETrackerPoseContext) (i : nat) :
  reset_screenSpacePointCounts views ctxs !!! i = ctxs !!! i ∨
  reset_screenSpacePointCounts views ctxs !!! i = set_screenSpacePointCount 0 (ctxs !!! i).
Proof.
  unfold reset_screenSpacePointCounts. revert ctxs.
  induction views as [|ts vs IH]; intros ctxs; simpl; [by left|].
  destruct (IH (alter (set_screenSpacePointCount 0) (Z.to_nat (listIndex ts)) ctxs))
    as [-> | ->]; rewrite list_lookup_total_alter; case_decide as Hd;
    try destruct Hd as [-> _]; auto.
Qed.

Lemma reset_screenSpacePointCounts_length (views : list TrackerState)
    (ctxs : list PS3EYETrackerPoseContext) :
  length (reset_screenSpacePointCounts views ctxs) = length ctxs.
Proof.
  unfold reset_screenSpacePointCounts. revert ctxs.
  induction views as [|ts vs IH]; intros ctxs; simpl; [reflexivity|].
  rewrite IH. apply length_alter.
Qed.

Lemma reset_screenSpacePointCounts_zero (views : list TrackerState)
    (ctxs : list PS3EYETrackerPoseContext) (ts : TrackerState) :
  ts ∈ views →
  screenSpacePointCount (ctx_at (reset_screenSpacePointCounts views ctxs) (listIndex ts)) = 0.
Proof.
  unfold ctx_at, reset_screenSpacePointCounts. revert ctxs.
  induction views as [|t vs IH]; intros ctxs Hin; [by apply elem_of_nil in Hin|].
  apply elem_of_cons in Hin as [-> | Hin]; simpl; [|by apply IH].
  destruct (reset_screenSpacePointCounts_lookup vs
              (alter (set_screenSpacePointCount 0) (Z.to_nat (listIndex t)) ctxs)
              (Z.to_nat (listIndex t))) as [Heq | Heq];
    unfold reset_screenSpacePointCounts in Heq; rewrite Heq; [|reflexivity].
  rewrite list_lookup_total_alter. case_decide as Hd; [reflexivity|].
  rewrite lookup_total_outside; [reflexivity|].
  apply Nat.nlt_ge. intros Hlt. apply Hd. split; [reflexivity | exact Hlt].
Qed.

(** *** The dwell timer of the placement steps *)

Lemma streak_start_snoc (history : list Observation) (o : Observation) :
  streak_start (history ++ [o]) = streak_step (streak_start history) o.
Proof.
  unfold streak_start. apply foldl_snoc.
Qed.

(** An unstable reading ends the streak, whatever came before. *)
Lemma streak_start_after_unstable (history : list Observation) (now : Q) :
  streak_start (history ++ [(false, now)]) = None.
Proof.
  rewrite streak_start_snoc. reflexivity.
Qed.

(** The streak that ends a history is dated from its first stable reading:
    the one that opens the history or follows an unstable reading. *)
Lemma streak_step_stable_run (acc : option Q) (rest : list Observation) :
  Forall (λ o : Observation, o.1 = true) rest → is_Some acc →
  foldl streak_step acc rest = acc.
Proof.
  revert acc. induction rest as [|o rest IH]; intros acc Hall [t0 ->]; [reflexivity|].
  apply Forall_cons in Hall as [Ho Hall]. simpl.
  unfold streak_step at 2. rewrite Ho. apply IH; [exact Hall | by eexists].
Qed.

Lemma streak_start_dated (before : list Observation) (now : Q) (rest : list Observation) :
  streak_start before = None →
  Forall (λ o : Observation, o.1 = true) rest →
  streak_start (before ++ (true, now) :: rest) = Some now.
Proof.
  intros Hb Hall. unfold streak_start in *. rewrite foldl_app, Hb. simpl.
  apply streak_step_stable_run; [exact Hall | by eexists].
Qed.

Lemma no_dwell_within_snoc (history : list Observation) (o : Observation) :
  no_dwell_within (history ++ [o]) ↔ no_dwell_within history ∧ dwell_reached history o = false.
Proof.
  unfold no_dwell_within. split.
  - intros Hno. split.
    + intros h1 o' h2 ->. apply (Hno h1 o' (h2 ++ [o])). by rewrite <- app_assoc.
    + apply (Hno history o []). reflexivity.
  - intros [Hno Ho] h1 o' h2 Heq.
    destruct (decide (h2 = [])) as [-> | Hne].
    + apply app_inj_tail in Heq as [-> ->]. exact Ho.
    + destruct (exists_last Hne) as (h2' & o'' & ->).
      change (h1 ++ o' :: h2' ++ [o'']) with (h1 ++ (o' :: h2') ++ [o'']) in Heq.
      rewrite app_assoc in Heq. apply app_inj_tail in Heq as [-> _].
      by apply (Hno h1 o' h2').
Qed.

Lemma no_dwell_within_nil : no_dwell_within [].
Proof.
  intros h1 o h2 Heq. by destruct h1.
Qed.

Lemma run_snoc (views : list TrackerState) (ticks : list Tick) (t : Tick)
    (s : AppSubStage_CalibrateWithMat) :
  run N views ext (ticks ++ [t]) s = run N views ext ticks s ≫= update N views ext t.
Proof.
  unfold run. by rewrite foldl_snoc.
Qed.

Lemma run_app (views : list TrackerState) (ticks1 ticks2 : list Tick)
    (s s1 : AppSubStage_CalibrateWithMat) :
  run N views ext ticks1 s = Some s1 →
  run N views ext (ticks1 ++ ticks2) s = run N views ext ticks2 s1.
Proof.
  unfold run. intros H1. by rewrite foldl_app, H1.
Qed.

Lemma place_step_waiting (views : list TrackerState) (history : list Observation)
    (o : Observation) (next : eMenuState) (s : AppSubStage_CalibrateWithMat) :
  timer_tracks history s →
  dwell_reached history o = false →
  let s' := place_step views o.1 o.2 next s in
  m_menuState s' = m_menuState s ∧ timer_tracks (history ++ [o]) s'.
Proof.
  unfold timer_tracks, dwell_reached, place_step. rewrite streak_start_snoc.
  destruct o as [[] now]; simpl; destruct (streak_start history) as [t0|].
  - intros [Hb Hs] Hd. rewrite Hb, Hs, Hd. cbn. auto.
  - intros Hb _. rewrite Hb. cbn. auto.
  - intros [Hb _] _. rewrite Hb. cbn. auto.
  - intros Hb _. rewrite Hb. cbn. auto.
Qed.

Lemma place_step_threshold (views : list TrackerState) (history : list Observation)
    (o : Observation) (next : eMenuState) (s : AppSubStage_CalibrateWithMat) :
  timer_tracks history s →
  dwell_reached history o = true →
  place_step views o.1 o.2 next s = setState views next s.
Proof.
  unfold timer_tracks, dwell_reached, place_step.
  destruct o as [[] now]; simpl; [|discriminate].
  destruct (streak_start history) as [t0|]; [|discriminate].
  intros [Hb Hs] Hd. by rewrite Hb, Hs, Hd.
Qed.

Lemma update_place_psmove (views : list TrackerState) (t : Tick)
    (s : AppSubStage_CalibrateWithMat) :
  m_menuState s = calibrationStepPlacePSMove →
  update N views ext t s
  = Some (place_step views (psmove_observation t).1 (psmove_observation t).2
                     calibrationStepRecordPSMove s).
Proof.
  intros Hm. unfold update. rewrite Hm. reflexivity.
Qed.

(** As long as no tick reaches the dwell duration the session waits in the
    placement step, its timer dated from the start of the current streak. *)
Lemma run_place_psmove_waiting (views : list TrackerState) (ticks : list Tick)
    (s0 : AppSubStage_CalibrateWithMat) :
  m_menuState s0 = calibrationStepPlacePSMove →
  m_bIsStable s0 = false →
  no_dwell_within (psmove_observation <$> ticks) →
  ∃ s, run N views ext ticks s0 = Some s ∧
       m_menuState s = calibrationStepPlacePSMove ∧
       timer_tracks (psmove_observation <$> ticks) s.
Proof.
  intros Hm Hst. induction ticks as [|t ticks IH] using rev_ind; intros Hno.
  - exists s0. by repeat split.
  - rewrite fmap_app in Hno. simpl in Hno. apply no_dwell_within_snoc in Hno as [Hno Ht].
    destruct (IH Hno) as (s & Hrun & Hms & Htr).
    rewrite run_snoc, Hrun. simpl. rewrite update_place_psmove by exact Hms.
    eexists. split; [reflexivity|].
    destruct (place_step_waiting views _ _ calibrationStepRecordPSMove s Htr Ht) as [Hm' Htr'].
    rewrite fmap_app. split; [by rewrite Hm' | exact Htr'].
Qed.

(** *** The recording step of the controller *)

Lemma update_record_psmove (views : list TrackerState) (t : Tick)
    (s : AppSubStage_CalibrateWithMat) :
  m_menuState s = calibrationStepRecordPSMove →
  update N views ext t s
  = Some (record_psmove_step N views (ControllerView t)
                             (bool_decide (is_Some (HMDView t))) s).
Proof.
  intros Hm. unfold update. rewrite Hm. reflexivity.
Qed.

Lemma ctx_at_insert (ctxs : list PS3EYETrackerPoseContext) (k j : Z)
    (c : PS3EYETrackerPoseContext) :
  ctx_at (<[Z.to_nat k := c]> ctxs) j
  = if decide (Z.to_nat k = Z.to_nat j ∧ (Z.to_nat k < length ctxs)%nat)
    then c else ctx_at ctxs j.
Proof.
  unfold ctx_at. apply list_lookup_total_insert.
Qed.

(** What one round of the recording loop does to the context of any
    tracker: nothing, or one sample appended to a buffer that was short. *)
Lemma record_tracker_lookup (PSMoveView : ClientPSMoveView) (loc : Z)
    (ctxs : list PS3EYETrackerPoseContext) (ts : TrackerState) (j : Z) :
  ctx_at (record_tracker N PSMoveView loc ctxs ts) j = ctx_at ctxs j ∨
  ∃ p, screenSpacePointCount (ctx_at ctxs j) < N ∧
       ctx_at (record_tracker N PSMoveView loc ctxs ts) j
       = append_screen_sample N loc p (ctx_at ctxs j).
Proof.
  unfold record_tracker. cbv zeta.
  destruct (GetIsCurrentlyTracking PSMoveView); [|by left].
  destruct (GetPixelLocationOnTrackerId PSMoveView _) as [p|]; [|by left].
  destruct (Z.ltb_spec (screenSpacePointCount (ctx_at ctxs (listIndex ts))) N) as [Hlt|];
    [|by left].
  rewrite ctx_at_insert. case_decide as Hd; [|by left].
  destruct Hd as [Heq _]. right. exists p.
  assert (ctx_at ctxs (listIndex ts) = ctx_at ctxs j) as Hsame
    by (unfold ctx_at; by rewrite Heq).
  rewrite <- Hsame. auto.
Qed.

Lemma record_tracker_counts_within (PSMoveView : ClientPSMoveView) (loc : Z)
    (views : list TrackerState) (ctxs : list PS3EYETrackerPoseContext) (ts : TrackerState) :
  counts_within N views ctxs →
  counts_within N views (record_tracker N PSMoveView loc ctxs ts).
Proof.
  intros Hin t Ht. specialize (Hin t Ht).
  destruct (record_tracker_lookup PSMoveView loc ctxs ts (listIndex t))
    as [-> | (p & Hlt & ->)]; [exact Hin|].
  rewrite append_screen_sample_count. lia.
Qed.

Lemma record_loop_counts_within (PSMoveView : ClientPSMoveView) (loc : Z)
    (views vs : list TrackerState) (ctxs : list PS3EYETrackerPoseContext) :
  counts_within N views ctxs →
  counts_within N views (foldl (record_tracker N PSMoveView loc) ctxs vs).
Proof.
  revert ctxs. induction vs as [|ts vs IH]; intros ctxs Hin; simpl; [exact Hin|].
  apply IH. by apply record_tracker_counts_within.
Qed.

(** A tracker whose buffer is full is skipped by the recording loop. *)
Lemma record_loop_full_unchanged (PSMoveView : ClientPSMoveView) (loc : Z)
    (vs : list TrackerState) (ctxs : list PS3EYETrackerPoseContext) (j : Z) :
  N ≤ screenSpacePointCount (ctx_at ctxs j) →
  ctx_at (foldl (record_tracker N PSMoveView loc) ctxs vs) j = ctx_at ctxs j.
Proof.
  revert ctxs. induction vs as [|ts vs IH]; intros ctxs Hfull; simpl; [reflexivity|].
  destruct (record_tracker_lookup PSMoveView loc ctxs ts j) as [Heq | (p & Hlt & _)]; [|lia].
  rewrite IH; rewrite Heq; [reflexivity | exact Hfull].
Qed.

Lemma reset_counts_within (views : list TrackerState)
    (ctxs : list PS3EYETrackerPoseContext) :
  0 ≤ N → counts_within N views (reset_screenSpacePointCounts views ctxs).
Proof.
  intros HN ts Hts. rewrite reset_screenSpacePointCounts_zero by exact Hts. lia.
Qed.

(** The controller moves while some tracker is short of samples. *)
Lemma record_step_moved_early (views : list TrackerState) (PSMoveView : ClientPSMoveView)
    (hmdPresent : bool) (s : AppSubStage_CalibrateWithMat) :
  bNeedMoreSamples N views (m_psmoveTrackerPoseContexts s) = true →
  GetIsStableAndAlignedWithGravity PSMoveView = false →
  record_psmove_step N views PSMoveView hmdPresent s
  = setState views calibrationStepPlacePSMove s.
Proof.
  intros Hneed Hst. unfold record_psmove_step. cbv zeta. by rewrite Hneed, Hst.
Qed.

(** The controller is picked up once every tracker is done. *)
Lemma record_step_picked_up (views : list TrackerState) (PSMoveView : ClientPSMoveView)
    (hmdPresent : bool) (s : AppSubStage_CalibrateWithMat) :
  bNeedMoreSamples N views (m_psmoveTrackerPoseContexts s) = false →
  GetIsStableAndAlignedWithGravity PSMoveView = false →
  record_psmove_step N views PSMoveView hmdPresent s
  = let s1 := set_sampleLocationIndex (m_sampleLocationIndex s + 1) s in
    if m_sampleLocationIndex s + 1 <? k_mat_sample_location_count
    then setState views calibrationStepPlacePSMove s1
    else if hmdPresent then setState views calibrationStepPlaceHMD s1
         else setState views calibrateStepSuccess s1.
Proof.
  intros Hneed Hst. unfold record_psmove_step. cbv zeta. by rewrite Hneed, Hst.
Qed.

(** *** The invariant of a session *)

Lemma session_invariant_enter_place (views : list TrackerState)
    (s : AppSubStage_CalibrateWithMat) :
  0 ≤ N →
  m_menuState s ≠ calibrationStepPlacePSMove →
  session_invariant N views (setState views calibrationStepPlacePSMove s).
Proof.
  intros HN Hne. unfold session_invariant.
  rewrite setState_menuState, enter_place_sampleLocationIndex, enter_place_contexts
    by exact Hne.
  split; [by apply reset_counts_within | auto].
Qed.

Lemma session_invariant_update (views : list TrackerState) (t : Tick)
    (s s' : AppSubStage_CalibrateWithMat) :
  0 ≤ N →
  session_invariant N views s →
  update N views ext t s = Some s' →
  session_invariant N views s'.
Proof.
  intros HN (Hcnt & Hidx & Hmenu) Hupd. destruct Hmenu as [Hm | [Hm | Hm]].
  - unfold update in Hupd. rewrite Hm in Hupd. injection Hupd as <-.
    apply session_invariant_enter_place; [exact HN | by rewrite Hm].
  - rewrite update_place_psmove in Hupd by exact Hm. injection Hupd as <-.
    unfold place_step.
    repeat case_match; unfold session_invariant; rewrite ?setState_menuState; cbn;
      try (unfold setState; case_decide; [congruence|]; cbn); auto.
  - rewrite update_record_psmove in Hupd by exact Hm. injection Hupd as <-.
    destruct (bNeedMoreSamples N views (m_psmoveTrackerPoseContexts s)) eqn:Hneed;
      destruct (GetIsStableAndAlignedWithGravity (ControllerView t)) eqn:Hst.
    + unfold record_psmove_step. cbv zeta. rewrite Hneed, Hst.
      split; [by apply record_loop_counts_within | cbn; auto].
    + rewrite record_step_moved_early by assumption.
      apply session_invariant_enter_place; [exact HN | by rewrite Hm].
    + unfold record_psmove_step. cbv zeta. rewrite Hneed, Hst. cbn.
      unfold session_invariant. auto.
    + rewrite record_step_picked_up by assumption. cbv zeta. rewrite Hidx. cbn.
      apply session_invariant_enter_place; [exact HN | cbn; by rewrite Hm].
Qed.

Lemma session_invariant_setState_initial (views : list TrackerState)
    (s : AppSubStage_CalibrateWithMat) :
  session_invariant N views s → session_invariant N views (setState views initial s).
Proof.
  intros (Hcnt & Hidx & Hmenu). unfold setState.
  case_decide; [unfold session_invariant; auto|].
  cbn. unfold session_invariant. cbn. auto.
Qed.

Lemma session_invariant_enter (views : list TrackerState)
    (s : AppSubStage_CalibrateWithMat) :
  0 ≤ N → session_invariant N views s → session_invariant N views (enter views s).
Proof.
  intros HN Hinv. unfold enter.
  destruct (decide (m_menuState s = calibrationStepPlacePSMove)) as [Hm | Hm].
  - unfold setState. by rewrite decide_True.
  - by apply session_invariant_enter_place.
Qed.

Lemma reachable_session_invariant (views : list TrackerState)
    (s : AppSubStage_CalibrateWithMat) :
  0 ≤ N → reachable N views ext s → session_invariant N views s.
Proof.
  intros HN Hreach. induction Hreach as [s Hm | s t s' _ IH Hupd | s _ IH | s _ IH | s _ IH].
  - apply session_invariant_enter_place; [exact HN | by rewrite Hm].
  - by apply (session_invariant_update views t s s').
  - by apply session_invariant_setState_initial.
  - by apply session_invariant_setState_initial.
  - by apply session_invariant_enter.
Qed.

(** *** The pose solve of one tracker *)

Lemma computeTrackerCameraPose_failure (tv : ClientTrackerView) (xf : mat4)
    (c : PS3EYETrackerPoseContext) :
  solvePnP ext (cvObjectPoints_of N) (cvImagePoints_of N (getTrackerPixelExtents tv) c)
           (getTrackerIntrinsicMatrix tv) cvDistCoeffs = None →
  computeTrackerCameraPose N ext tv xf c = (false, set_bValidTrackerPose false c).
Proof.
  intros Hsolve. unfold computeTrackerCameraPose. cbv zeta. by rewrite Hsolve.
Qed.

Lemma computeTrackerCameraPose_result (tv : ClientTrackerView) (xf : mat4)
    (c : PS3EYETrackerPoseContext) :
  let r := computeTrackerCameraPose N ext tv xf c in
  bValidTrackerPose r.2 = r.1 ∧
  screenSpacePoints r.2 = screenSpacePoints c ∧
  screenSpacePointCount r.2 = screenSpacePointCount c ∧
  avgScreenSpacePointAtLocation r.2 = avgScreenSpacePointAtLocation c.
Proof.
  unfold computeTrackerCameraPose. cbv zeta.
  destruct (solvePnP ext _ _ _ _) as [[rvec tvec]|]; cbn; auto.
Qed.

(** *** The loop over the trackers *)

Lemma solve_trackers_stopped (xf : mat4) (vs : list TrackerState)
    (ctxs : list PS3EYETrackerPoseContext) :
  foldl (λ '(bSuccess, cs) ts,
           if bSuccess : bool then
             let trackerIndex := listIndex ts in
             let '(ok, d) := computeTrackerCameraPose N ext (trackerView ts) xf
                               (ctx_at cs trackerIndex) in
             (bSuccess && ok, <[Z.to_nat trackerIndex := d]> cs)
           else (bSuccess, cs))
        (false, ctxs) vs
  = (false, ctxs).
Proof.
  induction vs as [|ts vs IH]; [reflexivity | exact IH].
Qed.

Lemma solve_trackers_cons (xf : mat4) (ts : TrackerState) (vs : list TrackerState)
    (ctxs : list PS3EYETrackerPoseContext) :
  solve_trackers N (ts :: vs) ext xf ctxs
  = let r := computeTrackerCameraPose N ext (trackerView ts) xf (ctx_at ctxs (listIndex ts)) in
    if r.1 then solve_trackers N vs ext xf (<[Z.to_nat (listIndex ts) := r.2]> ctxs)
    else (false, <[Z.to_nat (listIndex ts) := r.2]> ctxs).
Proof.
  unfold solve_trackers. simpl.
  destruct (computeTrackerCameraPose N ext (trackerView ts) xf (ctx_at ctxs (listIndex ts)))
    as [[] d]; simpl; [reflexivity | apply solve_trackers_stopped].
Qed.

Lemma views_well_formed_cons (ts : TrackerState) (vs : list TrackerState)
    (ctxs : list PS3EYETrackerPoseContext) (d : PS3EYETrackerPoseContext) :
  views_well_formed (ts :: vs) ctxs →
  views_well_formed vs (<[Z.to_nat (listIndex ts) := d]> ctxs) ∧
  (Z.to_nat (listIndex ts) < length ctxs)%nat ∧
  ∀ t, t ∈ vs → Z.to_nat (listIndex ts) ≠ Z.to_nat (listIndex t).
Proof.
  intros [Hnd Hrange]. rewrite fmap_cons in Hnd. apply NoDup_cons in Hnd as [Hnotin Hnd].
  assert (0 ≤ listIndex ts < Z.of_nat (length ctxs)) as Hts
    by (apply Hrange; apply elem_of_cons; by left).
  split; [|split].
  - split; [exact Hnd|]. intros t Ht. rewrite length_insert.
    apply Hrange. apply elem_of_cons. by right.
  - lia.
  - intros t Ht Heq.
    assert (0 ≤ listIndex t < Z.of_nat (length ctxs)) as Hbt
      by (apply Hrange; apply elem_of_cons; by right).
    apply Hnotin. apply list_elem_of_fmap. exists t. split; [lia | exact Ht].
Qed.

(** When every solve succeeds the loop runs to its end, having solved
    every tracker on its own context. *)
Lemma solve_trackers_all (xf : mat4) (vs : list TrackerState)
    (ctxs : list PS3EYETrackerPoseContext) :
  views_well_formed vs ctxs →
  (∀ ts, ts ∈ vs → solve_succeeds N ext xf ts (ctx_at ctxs (listIndex ts)) = true) →
  ∃ ctxs', solve_trackers N vs ext xf ctxs = (true, ctxs') ∧
           solver_run_for_every_tracker N vs ext xf ctxs ctxs' ∧
           ∀ j, (∀ ts, ts ∈ vs → Z.to_nat (listIndex ts) ≠ Z.to_nat j) →
                ctx_at ctxs' j = ctx_at ctxs j.
Proof.
  revert ctxs. induction vs as [|ts vs IH]; intros ctxs Hwf Hok.
  - exists ctxs. split; [reflexivity|]. split; [|auto].
    intros ts Hts. by apply elem_of_nil in Hts.
  - rewrite solve_trackers_cons. cbv zeta.
    pose proof (Hok ts ltac:(apply elem_of_cons; by left)) as Hts.
    unfold solve_succeeds in Hts. rewrite Hts.
    destruct (views_well_formed_cons ts vs ctxs
                (computeTrackerCameraPose N ext (trackerView ts) xf
                   (ctx_at ctxs (listIndex ts))).2 Hwf) as (Hwf' & Hlt & Hne).
    destruct (IH _ Hwf') as (ctxs' & Hrun & Hsolved & Hother).
    { intros t Ht. rewrite ctx_at_insert, decide_False by (intros [? _]; by eapply Hne).
      apply Hok. apply elem_of_cons. by right. }
    exists ctxs'. split; [exact Hrun|]. split.
    + intros t Ht. unfold solved_from. apply elem_of_cons in Ht as [-> | Ht].
      * rewrite Hother by (intros t' Ht' Heq; by eapply Hne).
        rewrite ctx_at_insert, decide_True by done. reflexivity.
      * rewrite (Hsolved t Ht).
        rewrite ctx_at_insert, decide_False by (intros [? _]; by eapply Hne).
        reflexivity.
    + intros j Hj. rewrite Hother.
      * rewrite ctx_at_insert, decide_False; [reflexivity|].
        intros [Heq _]. eapply Hj; [|exact Heq]. apply elem_of_cons. by left.
      * intros t Ht. apply Hj. apply elem_of_cons. by right.
Qed.

Lemma views_well_formed_apart (l1 l2 : list TrackerState)
    (ctxs : list PS3EYETrackerPoseContext) (t1 t2 : TrackerState) :
  views_well_formed (l1 ++ l2) ctxs → t1 ∈ l1 → t2 ∈ l2 →
  Z.to_nat (listIndex t1) ≠ Z.to_nat (listIndex t2).
Proof.
  intros [Hnd Hrange] H1 H2 Heq. rewrite fmap_app in Hnd.
  apply NoDup_app in Hnd as (_ & Hdisj & _).
  assert (0 ≤ listIndex t1 < Z.of_nat (length ctxs)) as Hb1
    by (apply Hrange, elem_of_app; by left).
  assert (0 ≤ listIndex t2 < Z.of_nat (length ctxs)) as Hb2
    by (apply Hrange, elem_of_app; by right).
  apply (Hdisj (listIndex t1)).
  - apply list_elem_of_fmap. by exists t1.
  - apply list_elem_of_fmap. exists t2. split; [lia | exact H2].
Qed.

(** The loop stops at the first solve that fails: the trackers before it
    and the failing one have been solved, the others are untouched. *)
Lemma solve_trackers_first_failure (xf : mat4) (pre : list TrackerState) (ts : TrackerState)
    (post : list TrackerState) (ctxs : list PS3EYETrackerPoseContext) :
  views_well_formed (pre ++ ts :: post) ctxs →
  (∀ t, t ∈ pre → solve_succeeds N ext xf t (ctx_at ctxs (listIndex t)) = true) →
  solve_succeeds N ext xf ts (ctx_at ctxs (listIndex ts)) = false →
  ∃ ctxs', solve_trackers N (pre ++ ts :: post) ext xf ctxs = (false, ctxs') ∧
           solver_run_for_every_tracker N (pre ++ [ts]) ext xf ctxs ctxs' ∧
           ∀ j, (∀ t, t ∈ pre ++ [ts] → Z.to_nat (listIndex t) ≠ Z.to_nat j) →
                ctx_at ctxs' j = ctx_at ctxs j.
Proof.
  revert ctxs. induction pre as [|p pre IH]; intros ctxs Hwf Hpre Hts.
  - simpl in *. rewrite solve_trackers_cons. cbv zeta.
    unfold solve_succeeds in Hts. rewrite Hts.
    eexists. split; [reflexivity|]. split.
    + intros t Ht. apply list_elem_of_singleton in Ht as ->. unfold solved_from.
      destruct (views_well_formed_cons ts post ctxs
                  (computeTrackerCameraPose N ext (trackerView ts) xf
                     (ctx_at ctxs (listIndex ts))).2 Hwf) as (_ & Hlt & _).
      rewrite ctx_at_insert, decide_True by done. reflexivity.
    + intros j Hj. rewrite ctx_at_insert, decide_False; [reflexivity|].
      intros [Heq _]. eapply Hj; [|exact Heq]. by apply list_elem_of_singleton.
  - simpl in Hwf. simpl. rewrite solve_trackers_cons. cbv zeta.
    pose proof (Hpre p ltac:(apply elem_of_cons; by left)) as Hp.
    unfold solve_succeeds in Hp. rewrite Hp.
    destruct (views_well_formed_cons p (pre ++ ts :: post) ctxs
                (computeTrackerCameraPose N ext (trackerView p) xf
                   (ctx_at ctxs (listIndex p))).2 Hwf) as (Hwf' & Hlt & Hne).
    assert (∀ t, t ∈ pre ++ ts :: post →
              ctx_at (<[Z.to_nat (listIndex p) :=
                          (computeTrackerCameraPose N ext (trackerView p) xf
                             (ctx_at ctxs (listIndex p))).2]> ctxs) (listIndex t)
              = ctx_at ctxs (listIndex t)) as Hsame.
    { intros t Ht. rewrite ctx_at_insert, decide_False; [reflexivity|].
      intros [Heq _]. by eapply Hne. }
    assert (∀ t, t ∈ pre ++ [ts] → t ∈ pre ++ ts :: post) as Hsub.
    { intros t Ht. apply elem_of_app in Ht as [Ht | Ht]; [apply elem_of_app; by left|].
      apply list_elem_of_singleton in Ht as ->.
      apply elem_of_app; right; apply elem_of_cons; by left. }
    destruct (IH _ Hwf') as (ctxs' & Hrun & Hsolved & Hother).
    { intros t Ht. rewrite Hsame by (apply elem_of_app; by left).
      apply Hpre. apply elem_of_cons. by right. }
    { rewrite Hsame by (apply Hsub, elem_of_app; right; by apply list_elem_of_singleton).
      exact Hts. }
    exists ctxs'. split; [exact Hrun|]. split.
    + intros t Ht. unfold solved_from. apply elem_of_cons in Ht as [-> | Ht].
      * rewrite Hother by (intros t' Ht' Heq; eapply Hne; [by apply Hsub | by rewrite Heq]).
        rewrite ctx_at_insert, decide_True by done. reflexivity.
      * rewrite (Hsolved t Ht). by rewrite Hsame by (by apply Hsub).
    + intros j Hj. rewrite Hother.
      * rewrite ctx_at_insert, decide_False; [reflexivity|].
        intros [Heq _]. eapply Hj; [|exact Heq]. apply elem_of_cons. by left.
      * intros t Ht. apply Hj. apply elem_of_cons. by right.
Qed.

(** A tracker table either solves throughout or has a first tracker whose
    solve fails. *)
Lemma first_failure_split (xf : mat4) (vs : list TrackerState)
    (ctxs : list PS3EYETrackerPoseContext) :
  (∀ ts, ts ∈ vs → solve_succeeds N ext xf ts (ctx_at ctxs (listIndex ts)) = true) ∨
  ∃ pre ts post,
    vs = pre ++ ts :: post ∧
    (∀ t, t ∈ pre → solve_succeeds N ext xf t (ctx_at ctxs (listIndex t)) = true) ∧
    solve_succeeds N ext xf ts (ctx_at ctxs (listIndex ts)) = false.
Proof.
  induction vs as [|t vs IH].
  - left. intros ts Hts. by apply elem_of_nil in Hts.
  - destruct (solve_succeeds N ext xf t (ctx_at ctxs (listIndex t))) eqn:Ht.
    + destruct IH as [Hall | (pre & ts & post & -> & Hpre & Hts)].
      * left. intros ts Hts. apply elem_of_cons in Hts as [-> | Hts]; auto.
      * right. exists (t :: pre), ts, post. split; [reflexivity|]. split; [|exact Hts].
        intros t' Ht'. apply elem_of_cons in Ht' as [-> | Ht']; auto.
    + right. exists [], t, vs. split; [reflexivity|]. split; [|exact Ht].
      intros t' Ht'. by apply elem_of_nil in Ht'.
Qed.

Lemma update_compute (views : list TrackerState) (t : Tick)
    (s : AppSubStage_CalibrateWithMat) :
  m_menuState s = calibrationStepComputeTrackerPoses →
  update N views ext t s = Some (compute_step N views ext (HMDView t) s).
Proof.
  intros Hm. unfold update. rewrite Hm. reflexivity.
Qed.

Lemma compute_step_success (views : list TrackerState) (hmd : option ClientHMDView)
    (s : AppSubStage_CalibrateWithMat) (ctxs' : list PS3EYETrackerPoseContext) :
  m_menuState s = calibrationStepComputeTrackerPoses →
  solve_trackers N views ext (compute_step_transform ext hmd s)
                 (m_psmoveTrackerPoseContexts s) = (true, ctxs') →
  let s' := compute_step N views ext hmd s in
  m_menuState s' = calibrateStepSuccess ∧
  m_psmoveTrackerPoseContexts s' = ctxs' ∧
  parent_requests s' = parent_requests s ++ pose_requests views ctxs'.
Proof.
  intros Hm Hsolve. unfold compute_step. cbv zeta. rewrite Hsolve.
  rewrite setState_menuState, setState_parent_requests.
  unfold setState. rewrite decide_False by (cbn; by rewrite Hm). auto.
Qed.

Lemma compute_step_failure (views : list TrackerState) (hmd : option ClientHMDView)
    (s : AppSubStage_CalibrateWithMat) (ctxs' : list PS3EYETrackerPoseContext) :
  m_menuState s = calibrationStepComputeTrackerPoses →
  solve_trackers N views ext (compute_step_transform ext hmd s)
                 (m_psmoveTrackerPoseContexts s) = (false, ctxs') →
  let s' := compute_step N views ext hmd s in
  m_menuState s' = calibrateStepFailed ∧
  m_psmoveTrackerPoseContexts s' = ctxs' ∧
  parent_requests s' = parent_requests s.
Proof.
  intros Hm Hsolve. unfold compute_step. cbv zeta. rewrite Hsolve.
  rewrite setState_menuState, setState_parent_requests.
  unfold setState. rewrite decide_False by (cbn; by rewrite Hm). auto.
Qed.

(** *** The recording step of the head device *)

Lemma update_record_hmd (views : list TrackerState) (t : Tick) (hmd : ClientHMDView)
    (s : AppSubStage_CalibrateWithMat) :
  m_menuState s = calibrationStepRecordHMD →
  HMDView t = Some hmd →
  update N views ext t s = Some (record_hmd_step views ext hmd s).
Proof.
  intros Hm Hh. unfold update. rewrite Hm, Hh. reflexivity.
Qed.

End Properties.

(** * The claims of the specification *)

(** ** Averaging the screen samples *)

(** C1. The specification has the point stored for a (tracker, location)
    pair equal the arithmetic mean of the N appended samples. The averaging
    loop of the source reads [screenSpacePoints[sampleCount]] on every round,
    so the stored point is the last sample. Evaluated on a session with one
    tracker and ten samples per location: after the dwell the controller is
    seen at the pixels (0,0), (1,2), ..., (9,18); the stored point is (9,18),
    the mean is (9/2, 9). *)
Theorem C1_stored_average_is_last_sample :
  ∃ s, run Example.N Example.one_tracker Example.math
           (Example.tick false 0 0 0 :: Example.sampling_ticks 0) Example.constructed
       = Some s ∧
       m_menuState s = calibrationStepRecordPSMove ∧
       let c := ctx_at (m_psmoveTrackerPoseContexts s) 0 in
       screenSpacePointCount c = Example.N ∧
       screenSpacePoints c
       = (λ k : nat, mkScreenLocation (inject_Z (Z.of_nat k)) (inject_Z (2 * Z.of_nat k)))
         <$> seq 0 10 ∧
       screen_eq (avgScreenSpacePointAtLocation c !!! 0%nat) (mkScreenLocation 9 18) ∧
       screen_eq (screen_mean (screenSpacePoints c)) (mkScreenLocation (9 # 2) 9) ∧
       ¬ screen_eq (avgScreenSpacePointAtLocation c !!! 0%nat)
                   (screen_mean (screenSpacePoints c)).
Proof.
  eexists. split; [vm_compute; reflexivity|].
  split; [reflexivity|]. cbv zeta.
  split; [reflexivity|]. split; [reflexivity|].
  split; [by vm_compute|]. split; [by vm_compute|].
  intros [Hx _]. vm_compute in Hx. discriminate Hx.
Qed.

(** ** The controller moves before the location is complete *)





(** ** The controller is picked up after the location is complete *)

(** What the step does in general when the controller is picked up and
    locations remain: the incremented index is put back to zero on entering
    the placement step. *)
Lemma record_picked_up_effect (N : Z) (views : list TrackerState) (ext : ExternalMath)
    (t : Tick) (s : AppSubStage_CalibrateWithMat) :
  m_menuState s = calibrationStepRecordPSMove →
  bNeedMoreSamples N views (m_psmoveTrackerPoseContexts s) = false →
  GetIsStableAndAlignedWithGravity (ControllerView t) = false →
  m_sampleLocationIndex s + 1 < k_mat_sample_location_count →
  ∃ s', update N views ext t s = Some s' ∧
        m_menuState s' = calibrationStepPlacePSMove ∧
        m_sampleLocationIndex s' = 0.
Proof.
  intros Hm Hneed Hst Hidx. eexists. split.
  { rewrite update_record_psmove by exact Hm.
    rewrite record_step_picked_up by assumption. cbv zeta.
    destruct (Z.ltb_spec (m_sampleLocationIndex s + 1) k_mat_sample_location_count);
      [reflexivity | lia]. }
  rewrite setState_menuState, enter_place_sampleLocationIndex by (cbn; by rewrite Hm).
  auto.
Qed.

(** C3. The specification has the pick-up of the controller advance the
    location index by one and the session go on with the next location.
    The index is incremented and then put back to zero by the entry hook of
    the placement step. Evaluated on the session that samples the first
    location: its one tracker is full at index 0, the controller is picked
    up, and the stage is in the placement step at index 0 instead of 1. *)
Theorem C3_pick_up_returns_to_first_location :
  ∃ s s', run Example.N Example.one_tracker Example.math
              (Example.tick false 0 0 0 :: Example.sampling_ticks 0) Example.constructed
          = Some s ∧
          m_menuState s = calibrationStepRecordPSMove ∧
          bNeedMoreSamples Example.N Example.one_tracker (m_psmoveTrackerPoseContexts s)
          = false ∧
          m_sampleLocationIndex s = 0 ∧
          update Example.N Example.one_tracker Example.math (Example.pick_up 1100) s = Some s' ∧
          m_menuState s' = calibrationStepPlacePSMove ∧
          m_sampleLocationIndex s' = 0 ∧
          m_sampleLocationIndex s' ≠ m_sampleLocationIndex s + 1.
Proof.
  eexists. eexists. split; [vm_compute; reflexivity|].
  split; [reflexivity|]. split; [reflexivity|]. split; [reflexivity|].
  split; [vm_compute; reflexivity|].
  repeat split; try reflexivity. discriminate.
Qed.

(** ** Sessions without head device *)

(** What the step does in general when the last location is complete, the
    controller is picked up and there is no head view: the stage is in
    [calibrateStepSuccess] at once; no pose has been solved or requested. *)
Lemma record_last_location_no_hmd_effect (N : Z) (views : list TrackerState)
    (ext : ExternalMath) (t : Tick) (s : AppSubStage_CalibrateWithMat) :
  m_menuState s = calibrationStepRecordPSMove →
  bNeedMoreSamples N views (m_psmoveTrackerPoseContexts s) = false →
  GetIsStableAndAlignedWithGravity (ControllerView t) = false →
  k_mat_sample_location_count ≤ m_sampleLocationIndex s + 1 →
  HMDView t = None →
  ∃ s', update N views ext t s = Some s' ∧
        m_menuState s' = calibrateStepSuccess ∧
        m_psmoveTrackerPoseContexts s' = m_psmoveTrackerPoseContexts s ∧
        parent_requests s' = parent_requests s.
Proof.
  intros Hm Hneed Hst Hidx Hh. eexists. split.
  { rewrite update_record_psmove by exact Hm.
    rewrite record_step_picked_up by assumption. cbv zeta.
    rewrite Hh, (bool_decide_eq_false_2 (is_Some None)) by apply is_Some_None.
    destruct (Z.ltb_spec (m_sampleLocationIndex s + 1) k_mat_sample_location_count);
      [lia | reflexivity]. }
  rewrite setState_menuState, setState_parent_requests.
  unfold setState. rewrite decide_False by (cbn; by rewrite Hm). auto.
Qed.

(** No state of a session is past the recording step of the controller. *)
Lemma reachable_never_past_recording (N : Z) (views : list TrackerState) (ext : ExternalMath)
    (s : AppSubStage_CalibrateWithMat) :
  0 ≤ N → reachable N views ext s →
  m_menuState s ≠ calibrationStepComputeTrackerPoses ∧
  m_menuState s ≠ calibrateStepSuccess.
Proof.
  intros HN Hreach.
  destruct (reachable_session_invariant N ext views s HN Hreach) as (_ & _ & Hmenu).
  split; intros Heq; rewrite Heq in Hmenu; destruct Hmenu as [? | [? | ?]]; discriminate.
Qed.

(** C4. The specification has a session without head device go from the
    recording step to the pose computation once the five locations are
    sampled, and reach success with one pose pair requested per tracker.
    Evaluated on the end-to-end scenario (one tracker, no head device, five
    locations of ten samples, stable and tracked throughout): the session
    ends in the placement step at index 0 with no pose requested. Evaluated
    on a session whose fifth location is complete: the pick-up puts the
    stage in [calibrateStepSuccess] directly, the pose of the tracker has
    not been solved and no pose has been requested. *)
Theorem C4_no_head_device_reports_no_pose :
  (∃ s, run Example.N Example.one_tracker Example.math Example.five_locations
            Example.constructed = Some s ∧
        m_menuState s = calibrationStepPlacePSMove ∧
        m_sampleLocationIndex s = 0 ∧
        parent_requests s = []) ∧
  (let s := Example.fifth_location_full in
   bNeedMoreSamples Example.N Example.one_tracker (m_psmoveTrackerPoseContexts s) = false ∧
   ∃ s', update Example.N Example.one_tracker Example.math (Example.pick_up 8100) s = Some s' ∧
         m_menuState s' = calibrateStepSuccess ∧
         bValidTrackerPose (ctx_at (m_psmoveTrackerPoseContexts s') 0) = false ∧
         parent_requests s' = []).
Proof.
  split.
  - eexists. split; [vm_compute; reflexivity|]. repeat split; reflexivity.
  - cbv zeta. split; [reflexivity|].
    eexists. split; [vm_compute; reflexivity|]. repeat split; reflexivity.
Qed.

(** ** The dwell timer *)

Lemma update_place_hmd (N : Z) (views : list TrackerState) (ext : ExternalMath)
    (t : Tick) (hmd : ClientHMDView) (s : AppSubStage_CalibrateWithMat) :
  m_menuState s = calibrationStepPlaceHMD →
  HMDView t = Some hmd →
  update N views ext t s
  = Some (place_step views (getIsHMDStableAndAlignedWithGravity hmd) (clock_now t)
                     calibrationStepRecordHMD s).
Proof.
  intros Hm Hh. unfold update. rewrite Hm, Hh. reflexivity.
Qed.

(** C5. In the placement step of the controller, for every sequence of
    ticks: as long as no tick has found the controller stable without
    interruption for the dwell duration (1000 ms, counted from the first
    stable reading of the streak), the stage stays in the placement step;
    the tick that first does moves it to the recording step, and no other
    does; a tick with an unstable reading clears the timer, so that the
    streak of a later stable reading is dated from that reading. *)
Theorem C5_dwell_threshold (N : Z) (views : list TrackerState) (ext : ExternalMath)
    (s0 : AppSubStage_CalibrateWithMat) (ticks : list Tick) (t : Tick) :
  m_menuState s0 = calibrationStepPlacePSMove →
  m_bIsStable s0 = false →
  no_dwell_within (psmove_observation <$> ticks) →
  let history := psmove_observation <$> ticks in
  ∃ s s', run N views ext ticks s0 = Some s ∧
          m_menuState s = calibrationStepPlacePSMove ∧
          update N views ext t s = Some s' ∧
          (dwell_reached history (psmove_observation t) = true →
             m_menuState s' = calibrationStepRecordPSMove) ∧
          (dwell_reached history (psmove_observation t) = false →
             m_menuState s' = calibrationStepPlacePSMove ∧
             timer_tracks (history ++ [psmove_observation t]) s') ∧
          (GetIsStableAndAlignedWithGravity (ControllerView t) = false →
             m_menuState s' = calibrationStepPlacePSMove ∧
             m_bIsStable s' = false ∧
             ∀ now rest, Forall (λ o : Observation, o.1 = true) rest →
               streak_start ((history ++ [psmove_observation t]) ++ (true, now) :: rest)
               = Some now).
Proof.
  intros Hm Hst Hno history.
  destruct (run_place_psmove_waiting N ext views ticks s0 Hm Hst Hno) as (s & Hrun & Hms & Htr).
  exists s. eexists. split; [exact Hrun|]. split; [exact Hms|].
  split; [by apply update_place_psmove|].
  split; [|split].
  - intros Hd. rewrite (place_step_threshold views history _ _ s Htr Hd).
    apply setState_menuState.
  - intros Hd.
    destruct (place_step_waiting views history _ calibrationStepRecordPSMove s Htr Hd)
      as [Hm' Htr'].
    split; [by rewrite Hm' | exact Htr'].
  - intros Hunstable.
    assert (dwell_reached history (psmove_observation t) = false) as Hd
      by (unfold dwell_reached, psmove_observation; cbn; by rewrite Hunstable).
    destruct (place_step_waiting views history _ calibrationStepRecordPSMove s Htr Hd)
      as [Hm' Htr'].
    assert (streak_start (history ++ [psmove_observation t]) = None) as Hnone.
    { rewrite streak_start_snoc. unfold streak_step, psmove_observation. cbn.
      by rewrite Hunstable. }
    split; [by rewrite Hm'|]. split.
    + unfold timer_tracks in Htr'. by rewrite Hnone in Htr'.
    + intros now rest Hall. by apply streak_start_dated.
Qed.

(** The controller is set down at 0 ms and read stable at 0, 500 and
    1000 ms: the third tick starts the recording. *)
Lemma C5_dwell_threshold_witness :
  ∃ s', run Example.N Example.one_tracker Example.math
            [Example.tick true 0 0 0; Example.tick true 0 0 500; Example.tick true 0 0 1000]
            (enter Example.one_tracker Example.constructed) = Some s' ∧
        m_menuState s' = calibrationStepRecordPSMove.
Proof.
  assert (no_dwell_within
            (psmove_observation <$> [Example.tick true 0 0 0; Example.tick true 0 0 500]))
    as Hno.
  { change (no_dwell_within (([] ++ [psmove_observation (Example.tick true 0 0 0)])
                             ++ [psmove_observation (Example.tick true 0 0 500)])).
    apply no_dwell_within_snoc. split; [|reflexivity].
    apply no_dwell_within_snoc. split; [apply no_dwell_within_nil | reflexivity]. }
  destruct (C5_dwell_threshold Example.N Example.one_tracker Example.math
              (enter Example.one_tracker Example.constructed)
              [Example.tick true 0 0 0; Example.tick true 0 0 500]
              (Example.tick true 0 0 1000) eq_refl eq_refl Hno)
    as (s & s' & Hrun & _ & Hupd & Hreached & _).
  exists s'. split; [|apply Hreached; reflexivity].
  change [Example.tick true 0 0 0; Example.tick true 0 0 500; Example.tick true 0 0 1000]
    with ([Example.tick true 0 0 0; Example.tick true 0 0 500] ++ [Example.tick true 0 0 1000]).
  rewrite run_snoc, Hrun. exact Hupd.
Defined.

(** ** The caps on the samples *)

(** C7. In every state of a session each tracker of the table holds at most
    N samples and the location index is at most five. A tick of the
    recording step on which the controller is stable leaves the context of a
    tracker whose buffer is full as it is, and a tick of the head recording
    step on which the head device is stable leaves the stage as it is when
    the head buffer is full. *)
Theorem C7_sample_caps (N : Z) (views : list TrackerState) (ext : ExternalMath) :
  0 ≤ N →
  (∀ s, reachable N views ext s →
        (∀ ts, ts ∈ views →
           screenSpacePointCount (ctx_at (m_psmoveTrackerPoseContexts s) (listIndex ts)) ≤ N) ∧
        m_sampleLocationIndex s ≤ k_mat_sample_location_count) ∧
  (∀ s t ts,
     m_menuState s = calibrationStepRecordPSMove →
     GetIsStableAndAlignedWithGravity (ControllerView t) = true →
     ts ∈ views →
     N ≤ screenSpacePointCount (ctx_at (m_psmoveTrackerPoseContexts s) (listIndex ts)) →
     ∃ s', update N views ext t s = Some s' ∧
           ctx_at (m_psmoveTrackerPoseContexts s') (listIndex ts)
           = ctx_at (m_psmoveTrackerPoseContexts s) (listIndex ts)) ∧
  (∀ s t hmd,
     m_menuState s = calibrationStepRecordHMD →
     HMDView t = Some hmd →
     getIsHMDStableAndAlignedWithGravity hmd = true →
     k_mat_sample_location_count ≤ worldSpaceSampleCount (m_hmdTrackerPoseContext s) →
     update N views ext t s = Some s).
Proof.
  intros HN. split; [|split].
  - intros s Hreach.
    destruct (reachable_session_invariant N ext views s HN Hreach) as (Hcnt & Hidx & _).
    split.
    + intros ts Hts. apply (Hcnt ts Hts).
    + rewrite Hidx. unfold k_mat_sample_location_count. lia.
  - intros s t ts Hm Hst Hts Hfull.
    rewrite update_record_psmove by exact Hm. eexists. split; [reflexivity|].
    unfold record_psmove_step. cbv zeta. rewrite Hst.
    destruct (bNeedMoreSamples N views (m_psmoveTrackerPoseContexts s)); [|reflexivity].
    cbn. by apply record_loop_full_unchanged.
  - intros s t hmd Hm Hh Hst Hfull.
    rewrite (update_record_hmd N ext views t hmd s Hm Hh). f_equal.
    unfold record_hmd_step. cbv zeta. rewrite Hst.
    destruct (Z.ltb_spec (worldSpaceSampleCount (m_hmdTrackerPoseContext s))
                k_mat_sample_location_count); [lia|].
    by rewrite andb_false_r.
Qed.

(** An entered session with one tracker and ten samples per location; an
    eleventh sample offered to a full buffer; a sixth head sample offered to
    a full head set. *)
Lemma C7_sample_caps_witness :
  (screenSpacePointCount
     (ctx_at (m_psmoveTrackerPoseContexts (enter Example.one_tracker Example.constructed))
             (listIndex Example.tracker_a)) ≤ Example.N ∧
   m_sampleLocationIndex (enter Example.one_tracker Example.constructed)
   ≤ k_mat_sample_location_count) ∧
  (∃ s', update Example.N Example.one_tracker Example.math (Example.tick true 7 7 1200)
                Example.first_location_full = Some s' ∧
         ctx_at (m_psmoveTrackerPoseContexts s') (listIndex Example.tracker_a)
         = ctx_at (m_psmoveTrackerPoseContexts Example.first_location_full)
                  (listIndex Example.tracker_a)) ∧
  update Example.N Example.one_tracker Example.math
         (Example.head_tick true true (mkPosition 50 0 0) k_psmove_quaternion_identity 9200)
         Example.head_full
  = Some Example.head_full.
Proof.
  destruct (C7_sample_caps Example.N Example.one_tracker Example.math)
    as (Hreach & Htracker & Hhead); [unfold Example.N; lia|].
  split; [|split].
  - destruct (Hreach (enter Example.one_tracker Example.constructed)) as [Hcnt Hidx].
    + apply reachable_enter. reflexivity.
    + split; [|exact Hidx]. apply Hcnt. apply list_elem_of_singleton. reflexivity.
  - apply Htracker.
    + reflexivity.
    + reflexivity.
    + apply list_elem_of_singleton. reflexivity.
    + unfold Example.N. vm_compute. discriminate.
  - eapply Hhead.
    + reflexivity.
    + reflexivity.
    + reflexivity.
    + vm_compute. discriminate.
Defined.

(** ** The requests of a successful computation *)

(** The requests of a successful computation carry, for every tracker, the
    two poses its solve has produced. *)
Lemma pose_requests_solved (N : Z) (views : list TrackerState) (ext : ExternalMath)
    (xf : mat4) (ctxs ctxs' : list PS3EYETrackerPoseContext) :
  solver_run_for_every_tracker N views ext xf ctxs ctxs' →
  pose_requests views ctxs'
  = (λ ts, let d := (computeTrackerCameraPose N ext (trackerView ts) xf
                       (ctx_at ctxs (listIndex ts))).2 in
           mkRequest (trackerPose d) (hmdCameraRelativeTrackerPose d) (trackerView ts))
    <$> views.
Proof.
  intros Hsolved. unfold pose_requests. apply Forall_fmap_ext, Forall_forall.
  intros ts Hts. cbv zeta. by rewrite (Hsolved ts Hts).
Qed.

(** ** Composing the coordinate frames *)

Lemma mat4_apply_mul (a b : mat4) (v : vec4) :
  vec4_eq (mat4_apply (mat4_mul a b) v) (mat4_apply a (mat4_apply b v)).
Proof.
  destruct a as [[] [] [] []], b as [[] [] [] []], v.
  unfold vec4_eq, mat4_apply, mat4_mul, vec4_add, vec4_scale. simpl.
  repeat split; ring.
Qed.

Lemma vec4_eq_trans (a b c : vec4) : vec4_eq a b → vec4_eq b c → vec4_eq a c.
Proof.
  intros (H1 & H2 & H3 & H4) (K1 & K2 & K3 & K4).
  repeat split; [by rewrite H1 | by rewrite H2 | by rewrite H3 | by rewrite H4].
Qed.

Lemma vec4_eq_sym (a b : vec4) : vec4_eq a b → vec4_eq b a.
Proof. intros (H1 & H2 & H3 & H4). repeat split; by symmetry. Qed.

Lemma mat4_apply_vec (m : mat4) (v w : vec4) :
  vec4_eq v w → vec4_eq (mat4_apply m v) (mat4_apply m w).
Proof.
  intros (H1 & H2 & H3 & H4). destruct m as [[] [] [] []], v, w.
  unfold vec4_eq, mat4_apply, vec4_add, vec4_scale in *. simpl in *.
  rewrite H1, H2, H3, H4. repeat split; reflexivity.
Qed.

Lemma mat4_apply_mat (a b : mat4) (v : vec4) :
  mat4_eq a b → vec4_eq (mat4_apply a v) (mat4_apply b v).
Proof.
  intros ((A1 & A2 & A3 & A4) & (B1 & B2 & B3 & B4) & (C1 & C2 & C3 & C4)
          & (D1 & D2 & D3 & D4)).
  destruct a as [[] [] [] []], b as [[] [] [] []], v.
  unfold vec4_eq, mat4_apply, vec4_add, vec4_scale in *. simpl in *.
  rewrite A1, A2, A3, A4, B1, B2, B3, B4, C1, C2, C3, C4, D1, D2, D3, D4.
  repeat split; reflexivity.
Qed.

Lemma mat4_apply_identity (v : vec4) : vec4_eq (mat4_apply mat4_identity v) v.
Proof.
  destruct v. unfold vec4_eq, mat4_apply, mat4_identity, vec4_add, vec4_scale. simpl.
  repeat split; ring.
Qed.

(** A product that is the identity cancels. *)
Lemma mat4_apply_cancel (a b : mat4) (v : vec4) :
  mat4_eq (mat4_mul a b) mat4_identity → vec4_eq (mat4_apply a (mat4_apply b v)) v.
Proof.
  intros Hab.
  apply (vec4_eq_trans _ (mat4_apply (mat4_mul a b) v)).
  - apply vec4_eq_sym, mat4_apply_mul.
  - apply (vec4_eq_trans _ (mat4_apply mat4_identity v)).
    + by apply mat4_apply_mat.
    + apply mat4_apply_identity.
Qed.

(** The rigid transform of the identity pose is the identity matrix. *)
Lemma rigid_transform_identity :
  mat4_eq (rigid_transform k_psmove_quaternion_identity k_psmove_position_origin)
          mat4_identity.
Proof. vm_compute. repeat split; reflexivity. Qed.

(** C9. Let the pose helpers build rigid transforms and let [glm::inverse]
    invert the camera-to-tracking transform [C] of the head device and the
    transform [O] of the calibration offset. With [H] the rigid transform of
    the averaged head orientation and position, the composed transform [T]
    is the product, in this order, of the inverse of [C], of [H] and of the
    inverse of [O]; applied to a vector, the rightmost factor acts first;
    the outer factors undo [C] and [O]: taking a vector through [O], [T] and
    [C] is taking it through [H]; the step that computes the poses passes
    the identity pose as offset, whose factor leaves every vector as it is;
    and [H] turns a vector by the averaged orientation and moves it by the
    averaged position. *)
Theorem C9_frame_composition (ext : ExternalMath) (hmdView : ClientHMDView)
    (psmoveCalibrationOffset : PSMovePose) (s : AppSubStage_CalibrateWithMat) (v : vec4) :
  builds_rigid_transforms ext →
  inverts ext (psmove_pose_to_glm_mat4 ext (getTrackerPose hmdView)) →
  inverts ext (psmove_pose_to_glm_mat4 ext psmoveCalibrationOffset) →
  inverts ext (psmove_pose_to_glm_mat4 ext k_psmove_pose_identity) →
  let h := m_hmdTrackerPoseContext s in
  let q := avgHMDWorldSpaceOrientation h in
  let p := avgHMDWorldSpacePoint h in
  let hmdCameraToHmdTrackingSpace :=
    rigid_transform (Orientation (getTrackerPose hmdView)) (Position (getTrackerPose hmdView)) in
  let psmoveCalibrationToHmdTrackingSpace := rigid_transform q p in
  let psmoveCalibrationToPSMoveTrackingSpace :=
    rigid_transform (Orientation psmoveCalibrationOffset) (Position psmoveCalibrationOffset) in
  let transform :=
    computePSMoveTrackerToHMDTrackerSpaceTransform ext hmdView psmoveCalibrationOffset h in
  transform
  = mat4_mul (mat4_mul (glm_inverse ext hmdCameraToHmdTrackingSpace)
                       psmoveCalibrationToHmdTrackingSpace)
             (glm_inverse ext psmoveCalibrationToPSMoveTrackingSpace) ∧
  vec4_eq
    (mat4_apply transform v)
    (mat4_apply (glm_inverse ext hmdCameraToHmdTrackingSpace)
       (mat4_apply psmoveCalibrationToHmdTrackingSpace
          (mat4_apply (glm_inverse ext psmoveCalibrationToPSMoveTrackingSpace) v))) ∧
  vec4_eq
    (mat4_apply hmdCameraToHmdTrackingSpace
       (mat4_apply transform (mat4_apply psmoveCalibrationToPSMoveTrackingSpace v)))
    (mat4_apply psmoveCalibrationToHmdTrackingSpace v) ∧
  vec4_eq
    (mat4_apply hmdCameraToHmdTrackingSpace
       (mat4_apply (compute_step_transform ext (Some hmdView) s) v))
    (mat4_apply psmoveCalibrationToHmdTrackingSpace v) ∧
  vec4_eq
    (mat4_apply psmoveCalibrationToHmdTrackingSpace v)
    (mkVec4
       ((1 - 2 * (q_y q * q_y q + q_z q * q_z q)) * c_x v
        + 2 * (q_x q * q_y q - q_w q * q_z q) * c_y v
        + 2 * (q_x q * q_z q + q_w q * q_y q) * c_z v + pos_x p * c_w v)
       (2 * (q_x q * q_y q + q_w q * q_z q) * c_x v
        + (1 - 2 * (q_x q * q_x q + q_z q * q_z q)) * c_y v
        + 2 * (q_y q * q_z q - q_w q * q_x q) * c_z v + pos_y p * c_w v)
       (2 * (q_x q * q_z q - q_w q * q_y q) * c_x v
        + 2 * (q_y q * q_z q + q_w q * q_x q) * c_y v
        + (1 - 2 * (q_x q * q_x q + q_y q * q_y q)) * c_z v + pos_z p * c_w v)
       (c_w v))%Q.
Proof.
  intros (Hpose & Hquat) (_ & Hcam) (Hoff & _) (Hid & _). cbv zeta.
  rewrite Hpose in Hcam, Hoff, Hid.
  set (C := rigid_transform (Orientation (getTrackerPose hmdView))
                            (Position (getTrackerPose hmdView))) in *.
  set (H := rigid_transform (avgHMDWorldSpaceOrientation (m_hmdTrackerPoseContext s))
                            (avgHMDWorldSpacePoint (m_hmdTrackerPoseContext s))).
  set (O := rigid_transform (Orientation psmoveCalibrationOffset)
                            (Position psmoveCalibrationOffset)) in *.
  assert (∀ offset w,
            mat4_eq (mat4_mul (glm_inverse ext (rigid_transform (Orientation offset)
                                                                (Position offset)))
                              (rigid_transform (Orientation offset) (Position offset)))
                    mat4_identity →
            vec4_eq
              (mat4_apply C
                 (mat4_apply (computePSMoveTrackerToHMDTrackerSpaceTransform
                                ext hmdView offset (m_hmdTrackerPoseContext s))
                    (mat4_apply (rigid_transform (Orientation offset) (Position offset)) w)))
              (mat4_apply H w)) as Hround.
  { intros offset w Hinv.
    unfold computePSMoveTrackerToHMDTrackerSpaceTransform. cbv zeta.
    rewrite !Hpose, Hquat. fold C H.
    apply (vec4_eq_trans _ (mat4_apply C (mat4_apply (glm_inverse ext C) (mat4_apply H w)))).
    - apply mat4_apply_vec.
      eapply vec4_eq_trans; [apply mat4_apply_mul|].
      eapply vec4_eq_trans; [apply mat4_apply_mul|].
      apply mat4_apply_vec, mat4_apply_vec, mat4_apply_cancel, Hinv.
    - apply mat4_apply_cancel, Hcam. }
  split; [|split; [|split; [|split]]].
  - unfold computePSMoveTrackerToHMDTrackerSpaceTransform. cbv zeta.
    by rewrite !Hpose, Hquat.
  - unfold computePSMoveTrackerToHMDTrackerSpaceTransform. cbv zeta.
    rewrite !Hpose, Hquat. fold C H O.
    eapply vec4_eq_trans; apply mat4_apply_mul.
  - apply Hround, Hoff.
  - unfold compute_step_transform.
    eapply vec4_eq_trans; [|apply (Hround k_psmove_pose_identity v Hid)].
    apply mat4_apply_vec, mat4_apply_vec, vec4_eq_sym.
    eapply vec4_eq_trans; [|apply mat4_apply_identity].
    apply mat4_apply_mat, rigid_transform_identity.
  - subst H. destruct v, (avgHMDWorldSpaceOrientation (m_hmdTrackerPoseContext s)),
      (avgHMDWorldSpacePoint (m_hmdTrackerPoseContext s)).
    unfold vec4_eq, mat4_apply, rigid_transform, vec4_add, vec4_scale. simpl.
    repeat split; ring.
Qed.

(** A head camera at [(1, 2, 3)] turned about the x axis, an averaged head
    pose at [(10, 20, 30)] turned about the y axis: the point [(1, 0, 0)] of
    the controller's tracking space, taken to the camera space of the head
    device and from there to its tracking space, is where the averaged head
    pose puts it. *)
Lemma C9_frame_composition_witness :
  builds_rigid_transforms Example.rigid_math ∧
  vec4_eq
    (mat4_apply (rigid_transform (mkQuaternion (3 # 5) (4 # 5) 0 0) (mkPosition 1 2 3))
       (mat4_apply (compute_step_transform Example.rigid_math (Some Example.head_camera_view)
                                           Example.head_averaged)
                   (mkVec4 1 0 0 1)))
    (mkVec4 (243 # 25) 20 (726 # 25) 1).
Proof.
  assert (builds_rigid_transforms Example.rigid_math) as Hbuild by (split; reflexivity).
  assert (∀ pose, pose = getTrackerPose Example.head_camera_view ∨ pose = Example.mat_offset
                  ∨ pose = k_psmove_pose_identity →
                  inverts Example.rigid_math
                          (psmove_pose_to_glm_mat4 Example.rigid_math pose)) as Hinv.
  { intros pose [-> | [-> | ->]]; split; vm_compute; repeat split; reflexivity. }
  split; [exact Hbuild|].
  destruct (C9_frame_composition Example.rigid_math Example.head_camera_view
              Example.mat_offset Example.head_averaged (mkVec4 1 0 0 1) Hbuild
              (Hinv _ (or_introl eq_refl)) (Hinv _ (or_intror (or_introl eq_refl)))
              (Hinv _ (or_intror (or_intror eq_refl))))
    as (_ & _ & _ & Hstep & Hhead).
  eapply vec4_eq_trans; [exact Hstep|].
  eapply vec4_eq_trans; [exact Hhead|].
  vm_compute. repeat split; reflexivity.
Defined.

(** ** A solve that fails *)

(** C10. When the solver fails for a tracker, [computeTrackerCameraPose]
    returns false with the validity flag of the tracker false, and the
    re-projection error and the two poses of the tracker are those of before
    the call. *)
Theorem C10_failed_solve_keeps_poses (N : Z) (ext : ExternalMath) (tv : ClientTrackerView)
    (xf : mat4) (c : PS3EYETrackerPoseContext) :
  solvePnP ext (cvObjectPoints_of N) (cvImagePoints_of N (getTrackerPixelExtents tv) c)
           (getTrackerIntrinsicMatrix tv) cvDistCoeffs = None →
  let r := computeTrackerCameraPose N ext tv xf c in
  r.1 = false ∧
  bValidTrackerPose r.2 = false ∧
  reprojectionError r.2 = reprojectionError c ∧
  trackerPose r.2 = trackerPose c ∧
  hmdCameraRelativeTrackerPose r.2 = hmdCameraRelativeTrackerPose c.
Proof.
  intros Hsolve r. subst r. rewrite computeTrackerCameraPose_failure by exact Hsolve.
  repeat split.
Qed.

(** A tracker without focal length, on which the stand-in solver fails. *)
Lemma C10_failed_solve_keeps_poses_witness :
  let r := computeTrackerCameraPose Example.N Example.math (trackerView Example.tracker_bad)
             mat4_identity Example.blank_ctx in
  r.1 = false ∧
  bValidTrackerPose r.2 = false ∧
  reprojectionError r.2 = reprojectionError Example.blank_ctx ∧
  trackerPose r.2 = trackerPose Example.blank_ctx ∧
  hmdCameraRelativeTrackerPose r.2 = hmdCameraRelativeTrackerPose Example.blank_ctx.
Proof.
  apply (C10_failed_solve_keeps_poses Example.N Example.math (trackerView Example.tracker_bad)
           mat4_identity Example.blank_ctx).
  reflexivity.
Defined.

(** * Further properties of the stage *)

(** ** Appending screen samples *)

(** X1. When the sample that fills a tracker's buffer is appended (the
    buffer of [N] slots held [N - 1] samples), the count reaches [N], the
    points stored for the other locations are kept, and the point stored for
    the location is decided by that last sample alone: a tracker that had
    taken other samples before it stores the same point. *)
Theorem X1_filling_sample_alone_decides (N : Z) (loc : Z) (p : PSMoveScreenLocation)
    (c d : PS3EYETrackerPoseContext) :
  0 < N →
  screenSpacePointCount c = N - 1 →
  length (screenSpacePoints c) = Z.to_nat N →
  0 ≤ loc < Z.of_nat (length (avgScreenSpacePointAtLocation c)) →
  screenSpacePointCount d = N - 1 →
  length (screenSpacePoints d) = Z.to_nat N →
  0 ≤ loc < Z.of_nat (length (avgScreenSpacePointAtLocation d)) →
  let c' := append_screen_sample N loc p c in
  let d' := append_screen_sample N loc p d in
  screenSpacePointCount c' = N ∧
  avgScreenSpacePointAtLocation c' !!! Z.to_nat loc
  = avgScreenSpacePointAtLocation d' !!! Z.to_nat loc ∧
  ∀ k, k ≠ Z.to_nat loc →
       avgScreenSpacePointAtLocation c' !!! k = avgScreenSpacePointAtLocation c !!! k.
Proof.
  intros HN Hc Hlen Hloc Hd Hlend Hlocd c' d'. subst c' d'. split; [|split].
  - rewrite append_screen_sample_count. lia.
  - unfold append_screen_sample. cbv zeta. cbn. rewrite Hc, Hd.
    destruct (Z.leb_spec N (N - 1 + 1)); [|lia].
    cbn. rewrite !list_lookup_total_insert_eq by lia. reflexivity.
  - intros k Hk. unfold append_screen_sample. cbv zeta. cbn.
    destruct (Z.leb_spec N (screenSpacePointCount c + 1)); [|lia].
    cbn. by rewrite list_lookup_total_insert_ne.
Qed.

(** Nine samples at [(1, 1)] or nine samples at [(9, 9)], then the sample
    [(7, 3)]. *)
Lemma X1_filling_sample_alone_decides_witness :
  let c := mkTrackerCtx (replicate 10 (mkScreenLocation 1 1)) 9
                        (replicate 5 (mkScreenLocation 0 0))
                        k_psmove_pose_identity k_psmove_pose_identity 0 false in
  let d := mkTrackerCtx (replicate 10 (mkScreenLocation 9 9)) 9
                        (replicate 5 (mkScreenLocation 0 0))
                        k_psmove_pose_identity k_psmove_pose_identity 0 false in
  let c' := append_screen_sample 10 2 (mkScreenLocation 7 3) c in
  let d' := append_screen_sample 10 2 (mkScreenLocation 7 3) d in
  screenSpacePointCount c' = 10 ∧
  avgScreenSpacePointAtLocation c' !!! Z.to_nat 2
  = avgScreenSpacePointAtLocation d' !!! Z.to_nat 2 ∧
  ∀ k, k ≠ Z.to_nat 2 →
       avgScreenSpacePointAtLocation c' !!! k = avgScreenSpacePointAtLocation c !!! k.
Proof.
  apply (X1_filling_sample_alone_decides 10 2 (mkScreenLocation 7 3)).
  - lia.
  - reflexivity.
  - reflexivity.
  - simpl. lia.
  - reflexivity.
  - reflexivity.
  - simpl. lia.
Defined.

(** X2. A sample that does not fill the buffer is written to the slot the
    count points to, the other slots and the averaged points are kept, and
    the count goes up by one: no average is computed before the buffer is
    full. *)
Theorem X2_early_sample_is_buffered (N : Z) (loc : Z) (p : PSMoveScreenLocation)
    (c : PS3EYETrackerPoseContext) :
  0 ≤ screenSpacePointCount c →
  screenSpacePointCount c + 1 < N →
  length (screenSpacePoints c) = Z.to_nat N →
  let c' := append_screen_sample N loc p c in
  screenSpacePointCount c' = screenSpacePointCount c + 1 ∧
  screenSpacePoints c' !!! Z.to_nat (screenSpacePointCount c) = p ∧
  (∀ k, k ≠ Z.to_nat (screenSpacePointCount c) →
        screenSpacePoints c' !!! k = screenSpacePoints c !!! k) ∧
  avgScreenSpacePointAtLocation c' = avgScreenSpacePointAtLocation c.
Proof.
  intros H0 Hc Hlen c'. subst c'.
  rewrite append_screen_sample_count, append_screen_sample_points,
    append_screen_sample_not_last by exact Hc.
  split; [reflexivity|]. split; [|split; [|reflexivity]].
  - apply list_lookup_total_insert_eq. lia.
  - intros k Hk. by apply list_lookup_total_insert_ne.
Qed.

Lemma X2_early_sample_is_buffered_witness :
  let c := mkTrackerCtx (replicate 10 (mkScreenLocation 1 1)) 3
                        (replicate 5 (mkScreenLocation 0 0))
                        k_psmove_pose_identity k_psmove_pose_identity 0 false in
  let c' := append_screen_sample 10 2 (mkScreenLocation 7 3) c in
  screenSpacePointCount c' = 3 + 1 ∧
  screenSpacePoints c' !!! Z.to_nat 3 = mkScreenLocation 7 3 ∧
  (∀ k, k ≠ Z.to_nat 3 → screenSpacePoints c' !!! k = screenSpacePoints c !!! k) ∧
  avgScreenSpacePointAtLocation c' = avgScreenSpacePointAtLocation c.
Proof.
  apply (X2_early_sample_is_buffered 10 2 (mkScreenLocation 7 3)).
  - simpl. lia.
  - simpl. lia.
  - reflexivity.
Defined.

(** ** One tick of the recording loop *)

Lemma record_tracker_length (N : Z) (PSMoveView : ClientPSMoveView) (loc : Z)
    (ctxs : list PS3EYETrackerPoseContext) (ts : TrackerState) :
  length (record_tracker N PSMoveView loc ctxs ts) = length ctxs.
Proof.
  unfold record_tracker. cbv zeta. repeat case_match; try reflexivity. apply length_insert.
Qed.

Lemma record_loop_length (N : Z) (PSMoveView : ClientPSMoveView) (loc : Z)
    (vs : list TrackerState) (ctxs : list PS3EYETrackerPoseContext) :
  length (foldl (record_tracker N PSMoveView loc) ctxs vs) = length ctxs.
Proof.
  revert ctxs. induction vs as [|ts vs IH]; intros ctxs; simpl; [reflexivity|].
  rewrite IH. apply record_tracker_length.
Qed.

Lemma views_well_formed_length (views : list TrackerState)
    (ctxs ctxs' : list PS3EYETrackerPoseContext) :
  length ctxs' = length ctxs → views_well_formed views ctxs → views_well_formed views ctxs'.
Proof.
  intros Hlen [Hnd Hrange]. split; [exact Hnd|]. intros ts Hts. rewrite Hlen. by apply Hrange.
Qed.

Lemma record_tracker_own (N : Z) (PSMoveView : ClientPSMoveView) (loc : Z)
    (ctxs : list PS3EYETrackerPoseContext) (ts : TrackerState) :
  (Z.to_nat (listIndex ts) < length ctxs)%nat →
  ctx_at (record_tracker N PSMoveView loc ctxs ts) (listIndex ts)
  = tracker_sample_effect N PSMoveView loc ts (ctx_at ctxs (listIndex ts)).
Proof.
  intros Hlt. unfold record_tracker, tracker_sample_effect. cbv zeta.
  repeat case_match; try reflexivity.
  by rewrite ctx_at_insert, decide_True.
Qed.

Lemma record_tracker_other (N : Z) (PSMoveView : ClientPSMoveView) (loc : Z)
    (ctxs : list PS3EYETrackerPoseContext) (ts : TrackerState) (j : Z) :
  Z.to_nat (listIndex ts) ≠ Z.to_nat j →
  ctx_at (record_tracker N PSMoveView loc ctxs ts) j = ctx_at ctxs j.
Proof.
  intros Hne. unfold record_tracker. cbv zeta. repeat case_match; try reflexivity.
  rewrite ctx_at_insert, decide_False; [reflexivity|]. by intros [? _].
Qed.

(** With a well-formed table every round of the loop acts on the context of
    its own tracker only. *)
Lemma record_loop_effect (N : Z) (PSMoveView : ClientPSMoveView) (loc : Z)
    (vs : list TrackerState) (ctxs : list PS3EYETrackerPoseContext) :
  views_well_formed vs ctxs →
  let ctxs' := foldl (record_tracker N PSMoveView loc) ctxs vs in
  (∀ ts, ts ∈ vs →
     ctx_at ctxs' (listIndex ts)
     = tracker_sample_effect N PSMoveView loc ts (ctx_at ctxs (listIndex ts))) ∧
  (∀ j, (∀ ts, ts ∈ vs → Z.to_nat (listIndex ts) ≠ Z.to_nat j) →
        ctx_at ctxs' j = ctx_at ctxs j).
Proof.
  revert ctxs. induction vs as [|t vs IH]; intros ctxs Hwf; cbv zeta.
  - split; [|auto]. intros ts Hts. by apply elem_of_nil in Hts.
  - simpl.
    destruct (views_well_formed_cons t vs ctxs inhabitant Hwf) as (Hwf' & Hlt & Hne).
    assert (views_well_formed vs (record_tracker N PSMoveView loc ctxs t)) as Hwf1.
    { eapply views_well_formed_length; [|exact Hwf'].
      by rewrite record_tracker_length, length_insert. }
    destruct (IH _ Hwf1) as [Hown Hother]. split.
    + intros ts Hts. apply elem_of_cons in Hts as [-> | Hts].
      * rewrite Hother by (intros t' Ht' Heq; by eapply Hne).
        by apply record_tracker_own.
      * rewrite (Hown ts Hts). f_equal. apply record_tracker_other. by apply Hne.
    + intros j Hj. rewrite Hother.
      * apply record_tracker_other. apply Hj. apply elem_of_cons. by left.
      * intros ts Hts. apply Hj. apply elem_of_cons. by right.
Qed.

Lemma bNeedMoreSamples_false (N : Z) (views : list TrackerState)
    (ctxs : list PS3EYETrackerPoseContext) :
  bNeedMoreSamples N views ctxs = false ↔
  ∀ ts, ts ∈ views → N ≤ screenSpacePointCount (ctx_at ctxs (listIndex ts)).
Proof.
  unfold bNeedMoreSamples. induction views as [|t vs IH]; simpl.
  - split; [|done]. intros _ ts Hts. by apply elem_of_nil in Hts.
  - rewrite orb_false_iff, IH, Z.ltb_ge. split.
    + intros [Ht Hvs] ts Hts. apply elem_of_cons in Hts as [-> | Hts]; auto.
    + intros Hall. split; [apply Hall; apply elem_of_cons; by left|].
      intros ts Hts. apply Hall. apply elem_of_cons. by right.
Qed.

(** X3. On a tick of the recording step with the controller stable and the
    tracker table well formed, every tracker that is short of samples and
    sees the tracked controller gets exactly the observed pixel appended;
    a tracker that is full, or does not see the controller, keeps its
    context, and so does every context outside the table. The step, the
    location index and the head set are unchanged. *)
Theorem X3_recording_tick (N : Z) (views : list TrackerState) (ext : ExternalMath)
    (t : Tick) (s : AppSubStage_CalibrateWithMat) :
  m_menuState s = calibrationStepRecordPSMove →
  GetIsStableAndAlignedWithGravity (ControllerView t) = true →
  views_well_formed views (m_psmoveTrackerPoseContexts s) →
  ∃ s', update N views ext t s = Some s' ∧
        m_menuState s' = calibrationStepRecordPSMove ∧
        m_sampleLocationIndex s' = m_sampleLocationIndex s ∧
        m_hmdTrackerPoseContext s' = m_hmdTrackerPoseContext s ∧
        (∀ ts p,
           ts ∈ views →
           GetIsCurrentlyTracking (ControllerView t) = true →
           GetPixelLocationOnTrackerId (ControllerView t) (getTrackerId (trackerView ts))
           = Some p →
           screenSpacePointCount (ctx_at (m_psmoveTrackerPoseContexts s) (listIndex ts)) < N →
           ctx_at (m_psmoveTrackerPoseContexts s') (listIndex ts)
           = append_screen_sample N (m_sampleLocationIndex s) p
               (ctx_at (m_psmoveTrackerPoseContexts s) (listIndex ts))) ∧
        (∀ ts,
           ts ∈ views →
           GetIsCurrentlyTracking (ControllerView t) = false
           ∨ GetPixelLocationOnTrackerId (ControllerView t) (getTrackerId (trackerView ts))
             = None
           ∨ N ≤ screenSpacePointCount (ctx_at (m_psmoveTrackerPoseContexts s) (listIndex ts)) →
           ctx_at (m_psmoveTrackerPoseContexts s') (listIndex ts)
           = ctx_at (m_psmoveTrackerPoseContexts s) (listIndex ts)) ∧
        (∀ j, (∀ ts, ts ∈ views → Z.to_nat (listIndex ts) ≠ Z.to_nat j) →
              ctx_at (m_psmoveTrackerPoseContexts s') j
              = ctx_at (m_psmoveTrackerPoseContexts s) j).
Proof.
  intros Hm Hst Hwf. rewrite update_record_psmove by exact Hm.
  eexists. split; [reflexivity|].
  unfold record_psmove_step. cbv zeta. rewrite Hst.
  destruct (bNeedMoreSamples N views (m_psmoveTrackerPoseContexts s)) eqn:Hneed; cbn.
  - destruct (record_loop_effect N (ControllerView t) (m_sampleLocationIndex s) views
                (m_psmoveTrackerPoseContexts s) Hwf) as [Hown Hother].
    repeat split; try assumption.
    + intros ts p Hts Htr Hpix Hlt. rewrite (Hown ts Hts).
      unfold tracker_sample_effect. rewrite Htr, Hpix.
      destruct (Z.ltb_spec (screenSpacePointCount
                              (ctx_at (m_psmoveTrackerPoseContexts s) (listIndex ts))) N);
        [reflexivity | lia].
    + intros ts Hts Hcase. rewrite (Hown ts Hts). unfold tracker_sample_effect.
      destruct Hcase as [-> | [Hpix | Hfull]]; [reflexivity | |].
      * rewrite Hpix. by case_match.
      * repeat case_match; try reflexivity. apply Z.ltb_lt in H1. lia.
  - pose proof (proj1 (bNeedMoreSamples_false N views _) Hneed) as Hfull.
    repeat split; try assumption; try reflexivity.
    intros ts p Hts _ _ Hlt. specialize (Hfull ts Hts). lia.
Qed.

(** Two trackers; the controller is seen by tracker [a] only: [a] gets the
    pixel, [b] keeps its context. *)
Lemma X3_recording_tick_witness :
  ∃ s', update Example.N Example.two_trackers Example.math
               (Example.tick_seen_by_a 3 4 100) Example.recording_two = Some s' ∧
        ctx_at (m_psmoveTrackerPoseContexts s') (listIndex Example.tracker_a)
        = append_screen_sample Example.N 0 (mkScreenLocation 3 4) Example.blank_ctx ∧
        ctx_at (m_psmoveTrackerPoseContexts s') (listIndex Example.tracker_b)
        = Example.blank_ctx.
Proof.
  assert (views_well_formed Example.two_trackers
            (m_psmoveTrackerPoseContexts Example.recording_two)) as Hwf.
  { split.
    - apply NoDup_cons. split; [|apply NoDup_singleton].
      intros Hin. apply list_elem_of_singleton in Hin. discriminate Hin.
    - intros ts Hts. apply elem_of_cons in Hts as [-> | Hts].
      + simpl. lia.
      + apply list_elem_of_singleton in Hts as ->. simpl. lia. }
  destruct (X3_recording_tick Example.N Example.two_trackers Example.math
              (Example.tick_seen_by_a 3 4 100) Example.recording_two eq_refl eq_refl Hwf)
    as (s' & Hupd & _ & _ & _ & Hseen & Hunseen & _).
  exists s'. split; [exact Hupd|]. split.
  - apply (Hseen Example.tracker_a (mkScreenLocation 3 4)).
    + apply elem_of_cons. by left.
    + reflexivity.
    + reflexivity.
    + simpl. unfold Example.N. lia.
  - apply (Hunseen Example.tracker_b).
    + apply elem_of_cons. right. apply elem_of_cons. by left.
    + right. left. reflexivity.
Defined.

(** ** Filling the buffers *)

Lemma run_cons (N : Z) (views : list TrackerState) (ext : ExternalMath) (t : Tick)
    (ticks : list Tick) (s s1 : AppSubStage_CalibrateWithMat) :
  update N views ext t s = Some s1 →
  run N views ext (t :: ticks) s = run N views ext ticks s1.
Proof.
  intros Hupd. unfold run. simpl. by rewrite Hupd.
Qed.

Lemma tracker_sample_effect_count (N : Z) (PSMoveView : ClientPSMoveView) (loc : Z)
    (ts : TrackerState) (c : PS3EYETrackerPoseContext) :
  GetIsCurrentlyTracking PSMoveView = true →
  is_Some (GetPixelLocationOnTrackerId PSMoveView (getTrackerId (trackerView ts))) →
  screenSpacePointCount c ≤ N →
  screenSpacePointCount (tracker_sample_effect N PSMoveView loc ts c)
  = Z.min N (screenSpacePointCount c + 1).
Proof.
  intros Htr [p Hp] Hle. unfold tracker_sample_effect. rewrite Htr, Hp.
  destruct (Z.ltb_spec (screenSpacePointCount c) N).
  - rewrite append_screen_sample_count. lia.
  - lia.
Qed.

(** One tick on which every tracker sees the stable controller. *)
Lemma recording_tick_counts (N : Z) (views : list TrackerState) (ext : ExternalMath)
    (t : Tick) (s : AppSubStage_CalibrateWithMat) :
  m_menuState s = calibrationStepRecordPSMove →
  views_well_formed views (m_psmoveTrackerPoseContexts s) →
  counts_within N views (m_psmoveTrackerPoseContexts s) →
  seen_by_all views t →
  ∃ s', update N views ext t s = Some s' ∧
        m_menuState s' = calibrationStepRecordPSMove ∧
        m_sampleLocationIndex s' = m_sampleLocationIndex s ∧
        length (m_psmoveTrackerPoseContexts s') = length (m_psmoveTrackerPoseContexts s) ∧
        ∀ ts, ts ∈ views →
          screenSpacePointCount (ctx_at (m_psmoveTrackerPoseContexts s') (listIndex ts))
          = Z.min N (screenSpacePointCount
                       (ctx_at (m_psmoveTrackerPoseContexts s) (listIndex ts)) + 1).
Proof.
  intros Hm Hwf Hcnt (Hst & Htr & Hseen). rewrite update_record_psmove by exact Hm.
  eexists. split; [reflexivity|].
  unfold record_psmove_step. cbv zeta. rewrite Hst.
  destruct (bNeedMoreSamples N views (m_psmoveTrackerPoseContexts s)) eqn:Hneed; cbn.
  - destruct (record_loop_effect N (ControllerView t) (m_sampleLocationIndex s) views
                (m_psmoveTrackerPoseContexts s) Hwf) as [Hown _].
    repeat split; try assumption; [apply record_loop_length|].
    intros ts Hts. rewrite (Hown ts Hts).
    apply tracker_sample_effect_count; [exact Htr | by apply Hseen | apply (Hcnt ts Hts)].
  - pose proof (proj1 (bNeedMoreSamples_false N views _) Hneed) as Hfull.
    repeat split; try assumption.
    intros ts Hts. specialize (Hfull ts Hts). specialize (Hcnt ts Hts). lia.
Qed.

(** X4. In the recording step, with a well-formed tracker table, after [k]
    ticks on each of which the controller is stable, tracked and seen by
    every tracker, a tracker that held [c] samples holds [min N (c + k)]:
    the stage is still in the recording step at the same location, and from
    [N] ticks on no tracker needs more samples. *)
Theorem X4_recording_fills_buffers (N : Z) (views : list TrackerState) (ext : ExternalMath)
    (ticks : list Tick) (s : AppSubStage_CalibrateWithMat) :
  m_menuState s = calibrationStepRecordPSMove →
  views_well_formed views (m_psmoveTrackerPoseContexts s) →
  counts_within N views (m_psmoveTrackerPoseContexts s) →
  Forall (seen_by_all views) ticks →
  ∃ s', run N views ext ticks s = Some s' ∧
        m_menuState s' = calibrationStepRecordPSMove ∧
        m_sampleLocationIndex s' = m_sampleLocationIndex s ∧
        (∀ ts, ts ∈ views →
           screenSpacePointCount (ctx_at (m_psmoveTrackerPoseContexts s') (listIndex ts))
           = Z.min N (screenSpacePointCount
                        (ctx_at (m_psmoveTrackerPoseContexts s) (listIndex ts))
                      + Z.of_nat (length ticks))) ∧
        (N ≤ Z.of_nat (length ticks) →
           bNeedMoreSamples N views (m_psmoveTrackerPoseContexts s') = false).
Proof.
  intros Hm Hwf Hcnt Hall.
  assert (∃ s', run N views ext ticks s = Some s' ∧
                m_menuState s' = calibrationStepRecordPSMove ∧
                m_sampleLocationIndex s' = m_sampleLocationIndex s ∧
                ∀ ts, ts ∈ views →
                  screenSpacePointCount (ctx_at (m_psmoveTrackerPoseContexts s') (listIndex ts))
                  = Z.min N (screenSpacePointCount
                               (ctx_at (m_psmoveTrackerPoseContexts s) (listIndex ts))
                             + Z.of_nat (length ticks))) as (s' & Hrun & Hm' & Hidx & Hcount).
  { revert s Hm Hwf Hcnt. induction Hall as [|t ticks Ht _ IH]; intros s Hm Hwf Hcnt.
    - exists s. split; [reflexivity|]. split; [exact Hm|]. split; [reflexivity|].
      intros ts Hts. specialize (Hcnt ts Hts). simpl. lia.
    - destruct (recording_tick_counts N views ext t s Hm Hwf Hcnt Ht)
        as (s1 & Hupd & Hm1 & Hidx1 & Hlen1 & Hcount1).
      destruct (IH s1 Hm1) as (s' & Hrun & Hm' & Hidx & Hcount).
      + by apply (views_well_formed_length views (m_psmoveTrackerPoseContexts s)).
      + intros ts Hts. rewrite (Hcount1 ts Hts). specialize (Hcnt ts Hts). lia.
      + exists s'. rewrite (run_cons N views ext t ticks s s1 Hupd).
        split; [exact Hrun|]. split; [exact Hm'|]. split; [congruence|].
        intros ts Hts. rewrite (Hcount ts Hts), (Hcount1 ts Hts).
        specialize (Hcnt ts Hts). rewrite length_cons. lia. }
  exists s'. split; [exact Hrun|]. split; [exact Hm'|]. split; [exact Hidx|].
  split; [exact Hcount|].
  intros Hk. apply bNeedMoreSamples_false. intros ts Hts.
  rewrite (Hcount ts Hts). specialize (Hcnt ts Hts). lia.
Qed.

(** Ten ticks seen by the one tracker of the table fill its buffer. *)
Lemma X4_recording_fills_buffers_witness :
  ∃ s', run Example.N Example.one_tracker Example.math
            ((λ k : nat, Example.tick true 1 1 (inject_Z (Z.of_nat k))) <$> seq 0 10)
            Example.recording_two = Some s' ∧
        m_menuState s' = calibrationStepRecordPSMove ∧
        bNeedMoreSamples Example.N Example.one_tracker (m_psmoveTrackerPoseContexts s') = false.
Proof.
  destruct (X4_recording_fills_buffers Example.N Example.one_tracker Example.math
              ((λ k : nat, Example.tick true 1 1 (inject_Z (Z.of_nat k))) <$> seq 0 10)
              Example.recording_two eq_refl)
    as (s' & Hrun & Hm & _ & _ & Hfull).
  - split.
    + apply NoDup_singleton.
    + intros ts Hts. apply list_elem_of_singleton in Hts as ->. simpl. lia.
  - intros ts Hts. apply list_elem_of_singleton in Hts as ->. simpl.
    unfold Example.N. lia.
  - apply Forall_fmap, Forall_forall. intros k _.
    split; [reflexivity|]. split; [reflexivity|]. intros ts _. by eexists.
  - exists s'. split; [exact Hrun|]. split; [exact Hm|].
    apply Hfull. simpl. unfold Example.N. lia.
Defined.

(** ** The placement steps *)

Lemma place_step_frame (views : list TrackerState) (isStableNow : bool) (now : Q)
    (next : eMenuState) (s : AppSubStage_CalibrateWithMat) :
  next = calibrationStepRecordPSMove ∨ next = calibrationStepRecordHMD →
  let s' := place_step views isStableNow now next s in
  (m_menuState s' = m_menuState s ∨ m_menuState s' = next) ∧
  m_psmoveTrackerPoseContexts s' = m_psmoveTrackerPoseContexts s ∧
  m_sampleLocationIndex s' = m_sampleLocationIndex s ∧
  m_hmdTrackerPoseContext s' = m_hmdTrackerPoseContext s ∧
  parent_requests s' = parent_requests s.
Proof.
  intros Hnext. cbv zeta. unfold place_step.
  repeat case_match; try (cbn; by auto).
  unfold setState. case_decide; [by auto|].
  destruct Hnext as [-> | ->]; cbn; auto.
Qed.

(** X5. A tick of a placement step (of the controller, or of the head
    device when a head view is present) only runs the dwell timer: the stage
    stays in the step or moves to its recording step, and the tracker
    contexts, the location index, the head set and the requests to the
    parent stage are left as they are. *)
Theorem X5_placement_keeps_samples (N : Z) (views : list TrackerState) (ext : ExternalMath)
    (t : Tick) (s : AppSubStage_CalibrateWithMat) :
  m_menuState s = calibrationStepPlacePSMove
  ∨ (m_menuState s = calibrationStepPlaceHMD ∧ is_Some (HMDView t)) →
  ∃ s', update N views ext t s = Some s' ∧
        (m_menuState s' = m_menuState s
         ∨ (m_menuState s = calibrationStepPlacePSMove
            ∧ m_menuState s' = calibrationStepRecordPSMove)
         ∨ (m_menuState s = calibrationStepPlaceHMD
            ∧ m_menuState s' = calibrationStepRecordHMD)) ∧
        m_psmoveTrackerPoseContexts s' = m_psmoveTrackerPoseContexts s ∧
        m_sampleLocationIndex s' = m_sampleLocationIndex s ∧
        m_hmdTrackerPoseContext s' = m_hmdTrackerPoseContext s ∧
        parent_requests s' = parent_requests s.
Proof.
  intros [Hm | [Hm [hmd Hh]]].
  - rewrite update_place_psmove by exact Hm. eexists. split; [reflexivity|].
    destruct (place_step_frame views (psmove_observation t).1 (psmove_observation t).2
                calibrationStepRecordPSMove s) as ([Hs | Hs] & Hrest); auto.
  - rewrite (update_place_hmd N views ext t hmd s Hm Hh). eexists. split; [reflexivity|].
    destruct (place_step_frame views (getIsHMDStableAndAlignedWithGravity hmd) (clock_now t)
                calibrationStepRecordHMD s) as ([Hs | Hs] & Hrest); auto.
Qed.

Lemma X5_placement_keeps_samples_witness :
  ∃ s', update Example.N Example.one_tracker Example.math (Example.tick true 0 0 2000)
               (enter Example.one_tracker Example.mid_third_location) = Some s' ∧
        m_psmoveTrackerPoseContexts s'
        = m_psmoveTrackerPoseContexts (enter Example.one_tracker Example.mid_third_location).
Proof.
  destruct (X5_placement_keeps_samples Example.N Example.one_tracker Example.math
              (Example.tick true 0 0 2000)
              (enter Example.one_tracker Example.mid_third_location))
    as (s' & Hupd & _ & Hctx & _).
  - left. reflexivity.
  - exists s'. split; [exact Hupd | exact Hctx].
Defined.

Lemma hmd_observation_some (t : Tick) (hmd : ClientHMDView) :
  HMDView t = Some hmd →
  hmd_observation t = (getIsHMDStableAndAlignedWithGravity hmd, clock_now t).
Proof.
  intros Hh. unfold hmd_observation. by rewrite Hh.
Qed.

Lemma run_place_hmd_waiting (N : Z) (views : list TrackerState) (ext : ExternalMath)
    (ticks : list Tick) (s0 : AppSubStage_CalibrateWithMat) :
  m_menuState s0 = calibrationStepPlaceHMD →
  m_bIsStable s0 = false →
  Forall (λ t, is_Some (HMDView t)) ticks →
  no_dwell_within (hmd_observation <$> ticks) →
  ∃ s, run N views ext ticks s0 = Some s ∧
       m_menuState s = calibrationStepPlaceHMD ∧
       timer_tracks (hmd_observation <$> ticks) s.
Proof.
  intros Hm Hst. induction ticks as [|t ticks IH] using rev_ind; intros Hall Hno.
  - exists s0. by repeat split.
  - rewrite fmap_app in Hno. simpl in Hno. apply no_dwell_within_snoc in Hno as [Hno Ht].
    apply Forall_app in Hall as [Hall Hlast]. apply Forall_singleton in Hlast as [hmd Hh].
    destruct (IH Hall Hno) as (s & Hrun & Hms & Htr).
    rewrite run_snoc, Hrun. simpl. rewrite (update_place_hmd N views ext t hmd s Hms Hh).
    eexists. split; [reflexivity|].
    rewrite (hmd_observation_some t hmd Hh) in Ht.
    destruct (place_step_waiting views _ _ calibrationStepRecordHMD s Htr Ht) as [Hm' Htr'].
    rewrite fmap_app. simpl. rewrite (hmd_observation_some t hmd Hh).
    split; [by rewrite <- Hms | exact Htr'].
Qed.

(** X6. The placement step of the head device runs the same dwell timer on
    the stability reading of the head device: while every tick carries a
    head view and none has found the head device stable without interruption
    for 1000 ms, the stage stays in the step; the first tick that does moves
    it to the recording step of the head device, and no other does. *)
Theorem X6_head_dwell_threshold (N : Z) (views : list TrackerState) (ext : ExternalMath)
    (s0 : AppSubStage_CalibrateWithMat) (ticks : list Tick) (t : Tick) :
  m_menuState s0 = calibrationStepPlaceHMD →
  m_bIsStable s0 = false →
  Forall (λ t, is_Some (HMDView t)) (ticks ++ [t]) →
  no_dwell_within (hmd_observation <$> ticks) →
  let history := hmd_observation <$> ticks in
  ∃ s s', run N views ext ticks s0 = Some s ∧
          m_menuState s = calibrationStepPlaceHMD ∧
          update N views ext t s = Some s' ∧
          (dwell_reached history (hmd_observation t) = true →
             m_menuState s' = calibrationStepRecordHMD) ∧
          (dwell_reached history (hmd_observation t) = false →
             m_menuState s' = calibrationStepPlaceHMD ∧
             timer_tracks (history ++ [hmd_observation t]) s').
Proof.
  intros Hm Hst Hall Hno history.
  apply Forall_app in Hall as [Hall Hlast]. apply Forall_singleton in Hlast as [hmd Hh].
  destruct (run_place_hmd_waiting N views ext ticks s0 Hm Hst Hall Hno)
    as (s & Hrun & Hms & Htr).
  exists s. eexists. split; [exact Hrun|]. split; [exact Hms|].
  split; [by apply update_place_hmd|].
  rewrite (hmd_observation_some t hmd Hh). split.
  - intros Hd.
    pose proof (place_step_threshold views history (_, _) calibrationStepRecordHMD s Htr Hd)
      as Hth.
    cbn in Hth. rewrite Hth. apply setState_menuState.
  - intros Hd.
    destruct (place_step_waiting views history (_, _) calibrationStepRecordHMD s Htr Hd)
      as [Hm' Htr'].
    split; [by rewrite <- Hms | exact Htr'].
Qed.

(** The head device is read stable at 0, 400 and 1000 ms. *)
Lemma X6_head_dwell_threshold_witness :
  ∃ s', run Example.N Example.one_tracker Example.math
            [Example.head_tick true true k_psmove_position_origin
                               k_psmove_quaternion_identity 0;
             Example.head_tick true true k_psmove_position_origin
                               k_psmove_quaternion_identity 400;
             Example.head_tick true true k_psmove_position_origin
                               k_psmove_quaternion_identity 1000]
            Example.placing_head = Some s' ∧
        m_menuState s' = calibrationStepRecordHMD.
Proof.
  set (t0 := Example.head_tick true true k_psmove_position_origin
                                k_psmove_quaternion_identity 0).
  set (t1 := Example.head_tick true true k_psmove_position_origin
                                k_psmove_quaternion_identity 400).
  set (t2 := Example.head_tick true true k_psmove_position_origin
                                k_psmove_quaternion_identity 1000).
  assert (no_dwell_within (hmd_observation <$> [t0; t1])) as Hno.
  { change (no_dwell_within (([] ++ [hmd_observation t0]) ++ [hmd_observation t1])).
    apply no_dwell_within_snoc. split; [|reflexivity].
    apply no_dwell_within_snoc. split; [apply no_dwell_within_nil | reflexivity]. }
  destruct (X6_head_dwell_threshold Example.N Example.one_tracker Example.math
              Example.placing_head [t0; t1] t2 eq_refl eq_refl)
    as (s & s' & Hrun & _ & Hupd & Hreached & _).
  - repeat (apply Forall_cons; split; [by eexists|]). apply Forall_nil. exact I.
  - exact Hno.
  - exists s'. split; [|apply Hreached; reflexivity].
    change [t0; t1; t2] with ([t0; t1] ++ [t2]).
    rewrite run_snoc, Hrun. exact Hupd.
Defined.

(** ** Recording the head device *)

(** X7. When the head device is read unstable in its recording step, the
    stage goes back to the placement step of the head device with an empty
    head set and a cleared stability flag; unlike the entry into the
    placement step of the controller this keeps the location index, the
    tracker contexts, the head buffers and the averaged head pose. *)
Theorem X7_head_moved_resets_head_count (N : Z) (views : list TrackerState)
    (ext : ExternalMath) (t : Tick) (hmd : ClientHMDView) (s : AppSubStage_CalibrateWithMat) :
  m_menuState s = calibrationStepRecordHMD →
  HMDView t = Some hmd →
  getIsHMDStableAndAlignedWithGravity hmd = false →
  ∃ s', update N views ext t s = Some s' ∧
        m_menuState s' = calibrationStepPlaceHMD ∧
        m_bIsStable s' = false ∧
        worldSpaceSampleCount (m_hmdTrackerPoseContext s') = 0 ∧
        worldSpacePoints (m_hmdTrackerPoseContext s')
        = worldSpacePoints (m_hmdTrackerPoseContext s) ∧
        worldSpaceOrientations (m_hmdTrackerPoseContext s')
        = worldSpaceOrientations (m_hmdTrackerPoseContext s) ∧
        avgHMDWorldSpacePoint (m_hmdTrackerPoseContext s')
        = avgHMDWorldSpacePoint (m_hmdTrackerPoseContext s) ∧
        avgHMDWorldSpaceOrientation (m_hmdTrackerPoseContext s')
        = avgHMDWorldSpaceOrientation (m_hmdTrackerPoseContext s) ∧
        m_sampleLocationIndex s' = m_sampleLocationIndex s ∧
        m_psmoveTrackerPoseContexts s' = m_psmoveTrackerPoseContexts s ∧
        parent_requests s' = parent_requests s.
Proof.
  intros Hm Hh Hst. rewrite (update_record_hmd N ext views t hmd s Hm Hh).
  eexists. split; [reflexivity|].
  unfold record_hmd_step. cbv zeta. rewrite Hst.
  unfold setState. rewrite decide_False by (by rewrite Hm). cbn. by repeat split.
Qed.

Lemma X7_head_moved_resets_head_count_witness :
  ∃ s', update Example.N Example.one_tracker Example.math
               (Example.head_tick false true k_psmove_position_origin
                                  k_psmove_quaternion_identity 9100)
               Example.recording_head = Some s' ∧
        m_menuState s' = calibrationStepPlaceHMD ∧
        worldSpaceSampleCount (m_hmdTrackerPoseContext s') = 0 ∧
        m_sampleLocationIndex s' = 5.
Proof.
  destruct (X7_head_moved_resets_head_count Example.N Example.one_tracker Example.math
              (Example.head_tick false true k_psmove_position_origin
                                 k_psmove_quaternion_identity 9100)
              (Example.head_view false true k_psmove_position_origin
                                 k_psmove_quaternion_identity)
              Example.recording_head eq_refl eq_refl eq_refl)
    as (s' & Hupd & Hm & _ & Hcount & _ & _ & _ & _ & Hidx & _).
  exists s'. split; [exact Hupd|]. split; [exact Hm|]. split; [exact Hcount | exact Hidx].
Defined.

(** X8. When the sample that fills the head set is taken (the head device
    is stable and tracking, the set holds one sample less than its
    capacity), the stage moves to the step that computes the poses with the
    set full, and the averaged head position and orientation are decided by
    that last sample alone: a stage that had taken other head samples
    before it stores the same averaged pose. *)
Theorem X8_filling_head_sample_alone_decides (N : Z) (views : list TrackerState)
    (ext : ExternalMath) (t : Tick) (hmd : ClientHMDView)
    (s r : AppSubStage_CalibrateWithMat) :
  one_head_sample_short s →
  one_head_sample_short r →
  HMDView t = Some hmd →
  getIsHMDStableAndAlignedWithGravity hmd = true →
  getIsHMDTracking hmd = true →
  ∃ s' r', update N views ext t s = Some s' ∧
           update N views ext t r = Some r' ∧
           m_menuState s' = calibrationStepComputeTrackerPoses ∧
           worldSpaceSampleCount (m_hmdTrackerPoseContext s') = k_mat_sample_location_count ∧
           avgHMDWorldSpacePoint (m_hmdTrackerPoseContext s')
           = avgHMDWorldSpacePoint (m_hmdTrackerPoseContext r') ∧
           avgHMDWorldSpaceOrientation (m_hmdTrackerPoseContext s')
           = avgHMDWorldSpaceOrientation (m_hmdTrackerPoseContext r').
Proof.
  intros (Hms & Hcs & Hps & Hos) (Hmr & Hcr & Hpr & Hor) Hh Hst Htr.
  rewrite (update_record_hmd N ext views t hmd s Hms Hh).
  rewrite (update_record_hmd N ext views t hmd r Hmr Hh).
  eexists _, _. split; [reflexivity|]. split; [reflexivity|].
  unfold record_hmd_step. cbv zeta. rewrite Hst, Htr, Hcs, Hcr.
  cbn [andb worldSpaceSampleCount].
  change (k_mat_sample_location_count - 1 <? k_mat_sample_location_count) with true.
  change (k_mat_sample_location_count <=? k_mat_sample_location_count - 1 + 1) with true.
  cbv iota.
  unfold sum_hmd_samples. cbn [worldSpacePoints worldSpaceOrientations].
  rewrite !list_lookup_total_insert_eq
    by (rewrite ?Hps, ?Hos, ?Hpr, ?Hor; unfold k_mat_sample_location_count; lia).
  match goal with
  | |- context [foldl ?f ?a ?l] => destruct (foldl f a l) as [avgPosition avgOrientation]
  end.
  unfold setState. rewrite !decide_False by (cbn; rewrite ?Hms, ?Hmr; discriminate).
  cbn. auto.
Qed.

(** Two head sets with different earlier samples, and the same last
    sample. *)
Lemma X8_filling_head_sample_alone_decides_witness :
  ∃ s' r', update Example.N Example.one_tracker Example.math
             (Example.head_tick true true (mkPosition 40 0 0) (mkQuaternion 0 1 0 0) 9100)
             Example.recording_head = Some s' ∧
           update Example.N Example.one_tracker Example.math
             (Example.head_tick true true (mkPosition 40 0 0) (mkQuaternion 0 1 0 0) 9100)
             Example.recording_head_elsewhere = Some r' ∧
           m_menuState s' = calibrationStepComputeTrackerPoses ∧
           avgHMDWorldSpacePoint (m_hmdTrackerPoseContext s')
           = avgHMDWorldSpacePoint (m_hmdTrackerPoseContext r').
Proof.
  destruct (X8_filling_head_sample_alone_decides Example.N Example.one_tracker Example.math
              (Example.head_tick true true (mkPosition 40 0 0) (mkQuaternion 0 1 0 0) 9100)
              (Example.head_view true true (mkPosition 40 0 0) (mkQuaternion 0 1 0 0))
              Example.recording_head Example.recording_head_elsewhere)
    as (s' & r' & Hs & Hr & Hm & _ & Hpos & _).
  - repeat split.
  - repeat split.
  - reflexivity.
  - reflexivity.
  - reflexivity.
  - exists s', r'. split; [exact Hs|]. split; [exact Hr|]. split; [exact Hm | exact Hpos].
Defined.

(** X9. From an empty head set whose buffers have five slots, five ticks on
    which the head device is present, stable and tracking record the five
    poses in the order of the ticks and move the stage to the step that
    computes the poses; the tracker contexts and the location index are
    left as they are. *)
Theorem X9_head_recording_fills (N : Z) (views : list TrackerState) (ext : ExternalMath)
    (ticks : list Tick) (s : AppSubStage_CalibrateWithMat) :
  m_menuState s = calibrationStepRecordHMD →
  worldSpaceSampleCount (m_hmdTrackerPoseContext s) = 0 →
  length (worldSpacePoints (m_hmdTrackerPoseContext s)) = 5%nat →
  length (worldSpaceOrientations (m_hmdTrackerPoseContext s)) = 5%nat →
  length ticks = 5%nat →
  Forall head_steady ticks →
  ∃ s', run N views ext ticks s = Some s' ∧
        m_menuState s' = calibrationStepComputeTrackerPoses ∧
        worldSpaceSampleCount (m_hmdTrackerPoseContext s') = 5 ∧
        Some <$> worldSpacePoints (m_hmdTrackerPoseContext s')
        = (λ t, (Position ∘ getHmdPose) <$> HMDView t) <$> ticks ∧
        Some <$> worldSpaceOrientations (m_hmdTrackerPoseContext s')
        = (λ t, (Orientation ∘ getHmdPose) <$> HMDView t) <$> ticks ∧
        m_psmoveTrackerPoseContexts s' = m_psmoveTrackerPoseContexts s ∧
        m_sampleLocationIndex s' = m_sampleLocationIndex s.
Proof.
  intros Hm Hcount Hlp Hlo Hlen Hall.
  destruct s as [menu stable start idx ctxs [points orientations count ap ao] reqs].
  cbn in Hm, Hcount, Hlp, Hlo. subst menu count.
  destruct points as [|p0 [|p1 [|p2 [|p3 [|p4 [|]]]]]]; try discriminate Hlp.
  destruct orientations as [|o0 [|o1 [|o2 [|o3 [|o4 [|]]]]]]; try discriminate Hlo.
  destruct ticks as [|t0 [|t1 [|t2 [|t3 [|t4 [|]]]]]]; try discriminate Hlen.
  repeat match goal with
         | H : Forall _ (_ :: _) |- _ => apply Forall_cons in H as [[? (? & ? & ?)] H]
         end.
  destruct t0 as [cv0 hv0 now0], t1 as [cv1 hv1 now1], t2 as [cv2 hv2 now2],
           t3 as [cv3 hv3 now3], t4 as [cv4 hv4 now4].
  cbn in *. subst.
  repeat match goal with
         | h : ClientHMDView |- _ => destruct h; cbn in *; subst
         end.
  eexists. split; [reflexivity|]. by repeat split.
Qed.

Lemma X9_head_recording_fills_witness :
  ∃ s', run Example.N Example.one_tracker Example.math
            ((λ k : nat, Example.head_tick true true
                           (mkPosition (inject_Z (Z.of_nat k)) 0 0)
                           k_psmove_quaternion_identity 9000) <$> seq 1 5)
            Example.head_empty = Some s' ∧
        m_menuState s' = calibrationStepComputeTrackerPoses ∧
        worldSpaceSampleCount (m_hmdTrackerPoseContext s') = 5.
Proof.
  destruct (X9_head_recording_fills Example.N Example.one_tracker Example.math
              ((λ k : nat, Example.head_tick true true
                             (mkPosition (inject_Z (Z.of_nat k)) 0 0)
                             k_psmove_quaternion_identity 9000) <$> seq 1 5)
              Example.head_empty eq_refl eq_refl eq_refl eq_refl)
    as (s' & Hrun & Hm & Hcount & _).
  - reflexivity.
  - apply Forall_fmap, Forall_forall. intros k _. eexists. by repeat split.
  - exists s'. split; [exact Hrun|]. split; [exact Hm | exact Hcount].
Defined.

(** ** Restarting and ending a session *)

(** X10. [calibrateStepSuccess] and [calibrateStepFailed] are final for
    [update] and for [renderUI]: no sequence of ticks changes the stage, and
    no restart button is drawn, so a click changes nothing either. *)
Theorem X10_final_steps_are_final (N : Z) (views : list TrackerState) (ext : ExternalMath)
    (ticks : list Tick) (restartClicked : bool) (s : AppSubStage_CalibrateWithMat) :
  m_menuState s = calibrateStepSuccess ∨ m_menuState s = calibrateStepFailed →
  run N views ext ticks s = Some s ∧ renderUI views restartClicked s = s.
Proof.
  intros Hm. split.
  - induction ticks as [|t ticks IH] using rev_ind; [reflexivity|].
    rewrite run_snoc, IH. simpl. unfold update. by destruct Hm as [-> | ->].
  - unfold renderUI. by destruct Hm as [-> | ->].
Qed.

Lemma X10_final_steps_are_final_witness :
  let s := mkStage calibrateStepFailed true 0 5 [Example.blank_ctx] Example.blank_hmd [] in
  run Example.N Example.one_tracker Example.math Example.five_locations s = Some s ∧
  renderUI Example.one_tracker true s = s.
Proof.
  apply (X10_final_steps_are_final Example.N Example.one_tracker Example.math).
  right. reflexivity.
Defined.

(** X11. A click on "Restart Calibration", drawn in the two steps of the
    controller and the two steps of the head device, puts the stage in
    [initial] without touching anything else; the next call of [update]
    enters the placement step of the controller with the location index at
    zero, the stability flag cleared and no sample counted for any tracker
    of the table, while the sample buffers, the averaged points, the poses
    and the requests made so far are kept. *)
Theorem X11_restart_then_update (N : Z) (views : list TrackerState) (ext : ExternalMath)
    (t : Tick) (s : AppSubStage_CalibrateWithMat) :
  m_menuState s = calibrationStepPlacePSMove ∨ m_menuState s = calibrationStepRecordPSMove
  ∨ m_menuState s = calibrationStepPlaceHMD ∨ m_menuState s = calibrationStepRecordHMD →
  renderUI views true s = set_menuState initial s ∧
  ∃ s', update N views ext t (renderUI views true s) = Some s' ∧
        m_menuState s' = calibrationStepPlacePSMove ∧
        m_sampleLocationIndex s' = 0 ∧
        m_bIsStable s' = false ∧
        (∀ ts, ts ∈ views →
           screenSpacePointCount (ctx_at (m_psmoveTrackerPoseContexts s') (listIndex ts)) = 0) ∧
        (∀ j, let c := ctx_at (m_psmoveTrackerPoseContexts s) j in
              let c' := ctx_at (m_psmoveTrackerPoseContexts s') j in
              screenSpacePoints c' = screenSpacePoints c ∧
              avgScreenSpacePointAtLocation c' = avgScreenSpacePointAtLocation c ∧
              trackerPose c' = trackerPose c ∧
              hmdCameraRelativeTrackerPose c' = hmdCameraRelativeTrackerPose c ∧
              reprojectionError c' = reprojectionError c ∧
              bValidTrackerPose c' = bValidTrackerPose c) ∧
        parent_requests s' = parent_requests s.
Proof.
  intros Hm.
  assert (renderUI views true s = set_menuState initial s) as Hui.
  { unfold renderUI, setState.
    destruct Hm as [Hm | [Hm | [Hm | Hm]]]; rewrite Hm; reflexivity. }
  split; [exact Hui|]. rewrite Hui.
  eexists. split; [reflexivity|].
  assert (m_menuState (set_menuState initial s) ≠ calibrationStepPlacePSMove) as Hne
    by discriminate.
  rewrite setState_menuState, enter_place_sampleLocationIndex, enter_place_bIsStable,
    enter_place_contexts, setState_parent_requests by exact Hne.
  cbn [m_psmoveTrackerPoseContexts set_menuState parent_requests].
  split; [reflexivity|]. split; [reflexivity|]. split; [reflexivity|].
  split; [|split; [|reflexivity]].
  - intros ts Hts. by apply reset_screenSpacePointCounts_zero.
  - intros j. cbv zeta. unfold ctx_at.
    by destruct (reset_screenSpacePointCounts_lookup views (m_psmoveTrackerPoseContexts s)
                   (Z.to_nat j)) as [-> | ->].
Qed.

Lemma X11_restart_then_update_witness :
  ∃ s', update Example.N Example.one_tracker Example.math (Example.tick true 0 0 5000)
               (renderUI Example.one_tracker true Example.mid_third_location) = Some s' ∧
        m_menuState s' = calibrationStepPlacePSMove ∧
        m_sampleLocationIndex s' = 0.
Proof.
  destruct (X11_restart_then_update Example.N Example.one_tracker Example.math
              (Example.tick true 0 0 5000) Example.mid_third_location)
    as (_ & s' & Hupd & Hm & Hidx & _).
  - right. left. reflexivity.
  - exists s'. split; [exact Hupd|]. split; [exact Hm | exact Hidx].
Defined.

(** ** What a session can reach *)

Lemma record_psmove_step_requests (N : Z) (views : list TrackerState)
    (PSMoveView : ClientPSMoveView) (hmdPresent : bool) (s : AppSubStage_CalibrateWithMat) :
  parent_requests (record_psmove_step N views PSMoveView hmdPresent s) = parent_requests s.
Proof.
  unfold record_psmove_step. cbv zeta.
  repeat case_match; rewrite ?setState_parent_requests; reflexivity.
Qed.

(** X12. Every state of a session (entered, then updated, restarted, left
    or entered again in any order) is in [initial], in the placement step or
    in the recording step of the controller, at location index zero. In
    such a state [update] never dereferences a missing head view and never
    asks the parent stage to set a tracker pose. *)
Theorem X12_session_stays_at_first_location (N : Z) (views : list TrackerState)
    (ext : ExternalMath) (s : AppSubStage_CalibrateWithMat) (t : Tick) :
  0 ≤ N →
  reachable N views ext s →
  (m_menuState s = initial ∨ m_menuState s = calibrationStepPlacePSMove
   ∨ m_menuState s = calibrationStepRecordPSMove) ∧
  m_sampleLocationIndex s = 0 ∧
  ∃ s', update N views ext t s = Some s' ∧ parent_requests s' = parent_requests s.
Proof.
  intros HN Hreach.
  destruct (reachable_session_invariant N ext views s HN Hreach) as (_ & Hidx & Hmenu).
  split; [exact Hmenu|]. split; [exact Hidx|].
  destruct Hmenu as [Hm | [Hm | Hm]].
  - unfold update. rewrite Hm. eexists. split; [reflexivity|].
    apply setState_parent_requests.
  - rewrite update_place_psmove by exact Hm. eexists. split; [reflexivity|].
    by apply place_step_frame; left.
  - rewrite update_record_psmove by exact Hm. eexists. split; [reflexivity|].
    apply record_psmove_step_requests.
Qed.

(** The session that samples the first location and picks the controller
    up. *)
Lemma X12_session_stays_at_first_location_witness :
  ∃ s, run Example.N Example.one_tracker Example.math (Example.one_location 0)
           (enter Example.one_tracker Example.constructed) = Some s ∧
       m_sampleLocationIndex s = 0 ∧
       ∃ s', update Example.N Example.one_tracker Example.math (Example.tick true 0 0 2000) s
             = Some s' ∧
             parent_requests s' = parent_requests s.
Proof.
  assert (∀ ticks s0,
            reachable Example.N Example.one_tracker Example.math s0 →
            ∃ s, run Example.N Example.one_tracker Example.math ticks s0 = Some s ∧
                 reachable Example.N Example.one_tracker Example.math s) as Hrun.
  { induction ticks as [|t ticks IH] using rev_ind; intros s0 Hs0.
    - exists s0. split; [reflexivity | exact Hs0].
    - destruct (IH s0 Hs0) as (s & Hrun & Hs).
      destruct (X12_session_stays_at_first_location Example.N Example.one_tracker
                  Example.math s t) as (_ & _ & s' & Hupd & _);
        [unfold Example.N; lia | exact Hs|].
      exists s'. rewrite run_snoc, Hrun. split; [exact Hupd|].
      by apply (reachable_update _ _ _ s t s'). }
  destruct (Hrun (Example.one_location 0) (enter Example.one_tracker Example.constructed))
    as (s & Hs & Hreach).
  { apply reachable_enter. reflexivity. }
  exists s. split; [exact Hs|].
  destruct (X12_session_stays_at_first_location Example.N Example.one_tracker Example.math
              s (Example.tick true 0 0 2000)) as (_ & Hidx & Hstep);
    [unfold Example.N; lia | exact Hreach|].
  split; [exact Hidx | exact Hstep].
Defined.

(** ** Computing the poses, continued *)

Lemma solve_trackers_keeps_samples (N : Z) (ext : ExternalMath) (xf : mat4)
    (vs : list TrackerState) (ctxs : list PS3EYETrackerPoseContext) (j : Z) :
  let c := ctx_at ctxs j in
  let c' := ctx_at (solve_trackers N vs ext xf ctxs).2 j in
  screenSpacePoints c' = screenSpacePoints c ∧
  screenSpacePointCount c' = screenSpacePointCount c ∧
  avgScreenSpacePointAtLocation c' = avgScreenSpacePointAtLocation c.
Proof.
  cbv zeta. revert ctxs. induction vs as [|ts vs IH]; intros ctxs; [by repeat split|].
  rewrite solve_trackers_cons. cbv zeta.
  destruct (computeTrackerCameraPose_result N ext (trackerView ts) xf
              (ctx_at ctxs (listIndex ts))) as (_ & Hp & Hc & Ha).
  assert (let d := (computeTrackerCameraPose N ext (trackerView ts) xf
                      (ctx_at ctxs (listIndex ts))).2 in
          let c1 := ctx_at (<[Z.to_nat (listIndex ts) := d]> ctxs) j in
          screenSpacePoints c1 = screenSpacePoints (ctx_at ctxs j) ∧
          screenSpacePointCount c1 = screenSpacePointCount (ctx_at ctxs j) ∧
          avgScreenSpacePointAtLocation c1 = avgScreenSpacePointAtLocation (ctx_at ctxs j))
    as (Hp1 & Hc1 & Ha1).
  { cbv zeta. rewrite ctx_at_insert. case_decide as Hd; [|by repeat split].
    destruct Hd as [Heq _].
    assert (ctx_at ctxs (listIndex ts) = ctx_at ctxs j) as <-
      by (unfold ctx_at; by rewrite Heq).
    by repeat split. }
  case_match.
  - destruct (IH (<[Z.to_nat (listIndex ts) :=
                      (computeTrackerCameraPose N ext (trackerView ts) xf
                         (ctx_at ctxs (listIndex ts))).2]> ctxs)) as (Hp2 & Hc2 & Ha2).
    rewrite Hp2, Hc2, Ha2. by repeat split.
  - cbn [snd]. by repeat split.
Qed.

(** X13. The step that computes the poses leaves the samples alone: for
    every tracker context the sample buffer, the sample count and the
    averaged points are the same after the step, whether the solves succeed
    or fail; the location index and the head set are unchanged too. *)
Theorem X13_pose_computation_keeps_samples (N : Z) (views : list TrackerState)
    (ext : ExternalMath) (t : Tick) (s : AppSubStage_CalibrateWithMat) :
  m_menuState s = calibrationStepComputeTrackerPoses →
  ∃ s', update N views ext t s = Some s' ∧
        (m_menuState s' = calibrateStepSuccess ∨ m_menuState s' = calibrateStepFailed) ∧
        (∀ j, let c := ctx_at (m_psmoveTrackerPoseContexts s) j in
              let c' := ctx_at (m_psmoveTrackerPoseContexts s') j in
              screenSpacePoints c' = screenSpacePoints c ∧
              screenSpacePointCount c' = screenSpacePointCount c ∧
              avgScreenSpacePointAtLocation c' = avgScreenSpacePointAtLocation c) ∧
        m_sampleLocationIndex s' = m_sampleLocationIndex s ∧
        m_hmdTrackerPoseContext s' = m_hmdTrackerPoseContext s.
Proof.
  intros Hm. rewrite update_compute by exact Hm. eexists. split; [reflexivity|].
  destruct (solve_trackers N views ext (compute_step_transform ext (HMDView t) s)
              (m_psmoveTrackerPoseContexts s)) as [b ctxs'] eqn:Hsolve.
  assert (∀ j, let c := ctx_at (m_psmoveTrackerPoseContexts s) j in
               let c' := ctx_at ctxs' j in
               screenSpacePoints c' = screenSpacePoints c ∧
               screenSpacePointCount c' = screenSpacePointCount c ∧
               avgScreenSpacePointAtLocation c' = avgScreenSpacePointAtLocation c) as Hkeep.
  { intros j.
    pose proof (solve_trackers_keeps_samples N ext (compute_step_transform ext (HMDView t) s)
                  views (m_psmoveTrackerPoseContexts s) j) as Hk.
    by rewrite Hsolve in Hk. }
  destruct b.
  - destruct (compute_step_success N ext views (HMDView t) s ctxs' Hm Hsolve)
      as (Hm' & Hc' & _).
    rewrite Hm', Hc'. split; [by left|]. split; [exact Hkeep|].
    unfold compute_step. cbv zeta. rewrite Hsolve.
    unfold setState. by rewrite decide_False by (cbn; by rewrite Hm).
  - destruct (compute_step_failure N ext views (HMDView t) s ctxs' Hm Hsolve)
      as (Hm' & Hc' & _).
    rewrite Hm', Hc'. split; [by right|]. split; [exact Hkeep|].
    unfold compute_step. cbv zeta. rewrite Hsolve.
    unfold setState. by rewrite decide_False by (cbn; by rewrite Hm).
Qed.

Lemma X13_pose_computation_keeps_samples_witness :
  ∃ s', update Example.N Example.bad_then_good Example.math (Example.tick true 0 0 9600)
               (Example.computing [Example.blank_ctx; Example.blank_ctx]) = Some s' ∧
        screenSpacePointCount (ctx_at (m_psmoveTrackerPoseContexts s') 0) = 0.
Proof.
  destruct (X13_pose_computation_keeps_samples Example.N Example.bad_then_good Example.math
              (Example.tick true 0 0 9600)
              (Example.computing [Example.blank_ctx; Example.blank_ctx]) eq_refl)
    as (s' & Hupd & _ & Hkeep & _).
  exists s'. split; [exact Hupd|].
  destruct (Hkeep 0) as (_ & Hc & _). exact Hc.
Defined.






(** ** The prompt of the recording step *)

(** X16. When the list indices of the tracker table are exactly
    [0 .. get_tracker_count - 1], the flag that [renderUI] computes to decide
    whether to show "Location sampling complete. Please pick up the
    controller." agrees with the test by which [update] decides whether a
    pick-up ends the location: the prompt is shown exactly when [update]
    waits for the pick-up. *)
Theorem X16_pick_up_prompt_agrees_with_update (N : Z) (views : list TrackerState)
    (get_tracker_count : Z) (ctxs : list PS3EYETrackerPoseContext) :
  (∀ i, 0 ≤ i < get_tracker_count ↔ ∃ ts, ts ∈ views ∧ listIndex ts = i) →
  bAnyTrackersSampling N get_tracker_count ctxs = bNeedMoreSamples N views ctxs.
Proof.
  intros Hidx. unfold bAnyTrackersSampling, bNeedMoreSamples.
  apply eq_true_iff_eq. rewrite !existsb_exists. split.
  - intros (i & Hi & Hlt). apply list_elem_of_In, list_elem_of_fmap in Hi as (k & -> & Hk).
    apply elem_of_seq in Hk.
    destruct (proj1 (Hidx (Z.of_nat k))) as (ts & Hts & Heq); [lia|].
    exists ts. split; [by apply list_elem_of_In | by rewrite Heq].
  - intros (ts & Hts & Hlt). apply list_elem_of_In in Hts.
    assert (0 ≤ listIndex ts < get_tracker_count) as Hrange by (apply Hidx; eauto).
    exists (listIndex ts). split; [|exact Hlt].
    apply list_elem_of_In, list_elem_of_fmap. exists (Z.to_nat (listIndex ts)).
    split; [lia|]. apply elem_of_seq. lia.
Qed.

Lemma X16_pick_up_prompt_agrees_with_update_witness :
  bAnyTrackersSampling Example.N 2 (m_psmoveTrackerPoseContexts Example.first_location_full)
  = bNeedMoreSamples Example.N Example.two_trackers
      (m_psmoveTrackerPoseContexts Example.first_location_full).
Proof.
  apply (X16_pick_up_prompt_agrees_with_update Example.N Example.two_trackers 2).
  intros i. split.
  - intros Hi. assert (i = 0 ∨ i = 1) as [-> | ->] by lia.
    + exists Example.tracker_a. split; [apply elem_of_cons; by left | reflexivity].
    + exists Example.tracker_b.
      split; [apply elem_of_cons; right; apply elem_of_cons; by left | reflexivity].
  - intros (ts & Hts & <-). apply elem_of_cons in Hts as [-> | Hts].
    + simpl. lia.
    + apply list_elem_of_singleton in Hts as ->. simpl. lia.
Defined.

(** ** From the controller to the head device *)

(** X17. When no tracker needs more samples, the controller is picked up,
    the incremented location index has reached the number of locations and
    a head view is present, the stage moves to the placement step of the
    head device: the stability flag is cleared and the head set emptied,
    while the tracker contexts keep their samples and averaged points and
    the location index keeps its incremented value. *)
Theorem X17_last_pick_up_with_head_device (N : Z) (views : list TrackerState)
    (ext : ExternalMath) (t : Tick) (hmd : ClientHMDView) (s : AppSubStage_CalibrateWithMat) :
  m_menuState s = calibrationStepRecordPSMove →
  bNeedMoreSamples N views (m_psmoveTrackerPoseContexts s) = false →
  GetIsStableAndAlignedWithGravity (ControllerView t) = false →
  k_mat_sample_location_count ≤ m_sampleLocationIndex s + 1 →
  HMDView t = Some hmd →
  ∃ s', update N views ext t s = Some s' ∧
        m_menuState s' = calibrationStepPlaceHMD ∧
        m_bIsStable s' = false ∧
        worldSpaceSampleCount (m_hmdTrackerPoseContext s') = 0 ∧
        worldSpacePoints (m_hmdTrackerPoseContext s')
        = worldSpacePoints (m_hmdTrackerPoseContext s) ∧
        worldSpaceOrientations (m_hmdTrackerPoseContext s')
        = worldSpaceOrientations (m_hmdTrackerPoseContext s) ∧
        m_sampleLocationIndex s' = m_sampleLocationIndex s + 1 ∧
        m_psmoveTrackerPoseContexts s' = m_psmoveTrackerPoseContexts s ∧
        parent_requests s' = parent_requests s.
Proof.
  intros Hm Hneed Hst Hidx Hh. eexists. split.
  { rewrite update_record_psmove by exact Hm.
    rewrite record_step_picked_up by assumption. cbv zeta.
    rewrite Hh, (bool_decide_eq_true_2 (is_Some (Some hmd))) by (by eexists).
    destruct (Z.ltb_spec (m_sampleLocationIndex s + 1) k_mat_sample_location_count);
      [lia | reflexivity]. }
  unfold setState. rewrite decide_False by (cbn; by rewrite Hm). cbn. by repeat split.
Qed.

Lemma X17_last_pick_up_with_head_device_witness :
  ∃ s', update Example.N Example.one_tracker Example.math
               (Example.head_tick true true k_psmove_position_origin
                                  k_psmove_quaternion_identity 8100)
               Example.fifth_location_full = Some s' ∧
        m_menuState s' = calibrationStepPlaceHMD ∧
        m_sampleLocationIndex s' = 5 ∧
        m_psmoveTrackerPoseContexts s'
        = m_psmoveTrackerPoseContexts Example.fifth_location_full.
Proof.
  destruct (X17_last_pick_up_with_head_device Example.N Example.one_tracker Example.math
              (Example.head_tick true true k_psmove_position_origin
                                 k_psmove_quaternion_identity 8100)
              (Example.head_view true true k_psmove_position_origin
                                 k_psmove_quaternion_identity)
              Example.fifth_location_full eq_refl eq_refl eq_refl)
    as (s' & Hupd & Hm & _ & _ & _ & _ & Hidx & Hctx & _).
  - simpl. unfold k_mat_sample_location_count. lia.
  - reflexivity.
  - exists s'. split; [exact Hupd|]. split; [exact Hm|]. split; [exact Hidx | exact Hctx].
Defined.

(** ** The outcomes of the pose computation *)

(** X18. Let the trackers of the table have list indices that are pairwise
    distinct and within the list of tracker contexts. In the step that
    computes the poses the solver is run on the trackers of the table in
    order, up to and including the first one whose solve fails. If every
    solve succeeds, every tracker has been
    solved, the two poses of each tracker are requested from the parent
    stage, and the stage goes to [calibrateStepSuccess]. If some solve
    fails, the trackers after the first failing one are left as they were,
    no pose is requested, and the stage goes to [calibrateStepFailed]. *)
Theorem X18_pose_computation_outcomes (N : Z) (views : list TrackerState) (ext : ExternalMath)
    (t : Tick) (s : AppSubStage_CalibrateWithMat) :
  m_menuState s = calibrationStepComputeTrackerPoses →
  views_well_formed views (m_psmoveTrackerPoseContexts s) →
  let xf := compute_step_transform ext (HMDView t) s in
  let ctxs := m_psmoveTrackerPoseContexts s in
  let solved ts := (computeTrackerCameraPose N ext (trackerView ts) xf
                      (ctx_at ctxs (listIndex ts))).2 in
  ∃ s', update N views ext t s = Some s' ∧
        ((∀ ts, ts ∈ views → solve_succeeds N ext xf ts (ctx_at ctxs (listIndex ts)) = true) →
           m_menuState s' = calibrateStepSuccess ∧
           solver_run_for_every_tracker N views ext xf ctxs (m_psmoveTrackerPoseContexts s') ∧
           parent_requests s'
           = parent_requests s
             ++ ((λ ts, mkRequest (trackerPose (solved ts))
                                  (hmdCameraRelativeTrackerPose (solved ts))
                                  (trackerView ts)) <$> views)) ∧
        (∀ pre ts post,
           views = pre ++ ts :: post →
           (∀ p, p ∈ pre → solve_succeeds N ext xf p (ctx_at ctxs (listIndex p)) = true) →
           solve_succeeds N ext xf ts (ctx_at ctxs (listIndex ts)) = false →
           m_menuState s' = calibrateStepFailed ∧
           parent_requests s' = parent_requests s ∧
           solver_run_for_every_tracker N (pre ++ [ts]) ext xf ctxs
                                        (m_psmoveTrackerPoseContexts s') ∧
           ∀ p, p ∈ post →
             ctx_at (m_psmoveTrackerPoseContexts s') (listIndex p) = ctx_at ctxs (listIndex p)) ∧
        ((∃ ts, ts ∈ views ∧ solve_succeeds N ext xf ts (ctx_at ctxs (listIndex ts)) = false) →
           m_menuState s' = calibrateStepFailed ∧
           parent_requests s' = parent_requests s).
Proof.
  intros Hm Hwf xf ctxs solved. eexists. split; [by apply update_compute|].
  assert (∀ pre ts post,
            views = pre ++ ts :: post →
            (∀ p, p ∈ pre → solve_succeeds N ext xf p (ctx_at ctxs (listIndex p)) = true) →
            solve_succeeds N ext xf ts (ctx_at ctxs (listIndex ts)) = false →
            m_menuState (compute_step N views ext (HMDView t) s) = calibrateStepFailed ∧
            parent_requests (compute_step N views ext (HMDView t) s) = parent_requests s ∧
            solver_run_for_every_tracker N (pre ++ [ts]) ext xf ctxs
              (m_psmoveTrackerPoseContexts (compute_step N views ext (HMDView t) s)) ∧
            ∀ p, p ∈ post →
              ctx_at (m_psmoveTrackerPoseContexts (compute_step N views ext (HMDView t) s))
                     (listIndex p) = ctx_at ctxs (listIndex p)) as Hfail.
  { intros pre ts post Hviews Hpre Hts. subst views.
    destruct (solve_trackers_first_failure N ext xf pre ts post ctxs Hwf Hpre Hts)
      as (ctxs' & Hrun & Hsolved & Hother).
    destruct (compute_step_failure N ext (pre ++ ts :: post) (HMDView t) s ctxs' Hm Hrun)
      as (Hm' & Hc' & Hr').
    rewrite Hm', Hc', Hr'. repeat split; [exact Hsolved|].
    intros p Hp. apply Hother. intros q Hq.
    apply (views_well_formed_apart (pre ++ [ts]) post ctxs q p); [|exact Hq | exact Hp].
    by rewrite <- app_assoc. }
  split; [|split].
  - intros Hall.
    destruct (solve_trackers_all N ext xf views ctxs Hwf Hall) as (ctxs' & Hrun & Hsolved & _).
    destruct (compute_step_success N ext views (HMDView t) s ctxs' Hm Hrun)
      as (Hm' & Hc' & Hr').
    rewrite Hm', Hc', Hr'. repeat split; [exact Hsolved|].
    f_equal. by apply pose_requests_solved.
  - exact Hfail.
  - intros (ts & Hts & Hbad).
    destruct (first_failure_split N ext xf views ctxs) as [Hall | (pre & f & post & Hv & Hpre & Hf)].
    + rewrite (Hall ts Hts) in Hbad. discriminate Hbad.
    + destruct (Hfail pre f post Hv Hpre Hf) as (Hm' & Hr' & _). auto.
Qed.

(** Two trackers whose solves succeed: two requests, and success. *)
Lemma X18_pose_computation_outcomes_witness :
  ∃ s', update Example.N [Example.tracker_a; Example.tracker_b] Example.math
               (Example.tick true 0 0 9600)
               (Example.computing [Example.blank_ctx; Example.blank_ctx]) = Some s' ∧
        m_menuState s' = calibrateStepSuccess ∧
        length (parent_requests s') = 2%nat.
Proof.
  assert (views_well_formed [Example.tracker_a; Example.tracker_b]
            [Example.blank_ctx; Example.blank_ctx]) as Hwf.
  { split.
    - apply NoDup_cons. split; [|apply NoDup_singleton].
      intros Hin. apply list_elem_of_singleton in Hin. discriminate Hin.
    - intros ts Hts. apply elem_of_cons in Hts as [-> | Hts].
      + simpl. lia.
      + apply list_elem_of_singleton in Hts as ->. simpl. lia. }
  destruct (X18_pose_computation_outcomes Example.N [Example.tracker_a; Example.tracker_b] Example.math
              (Example.tick true 0 0 9600)
              (Example.computing [Example.blank_ctx; Example.blank_ctx]) eq_refl Hwf)
    as (s' & Hupd & Hall & _).
  exists s'. split; [exact Hupd|].
  destruct Hall as (Hm & _ & Hreq).
  - intros ts Hts. apply elem_of_cons in Hts as [-> | Hts].
    + reflexivity.
    + apply list_elem_of_singleton in Hts as ->. reflexivity.
  - split; [exact Hm|]. rewrite Hreq. reflexivity.
Defined.
